(** * Species catalogue: edit dialog, speed chart and speed page

    A shallow embedding of

    - [src/app/species/edit-species-dialog.tsx]   (form schema, submit handler,
      conditional rendering of the dialog),
    - [src/app/species-speed/animal-speed-graph.tsx] (CSV parse effect, render
      effect) and the page that mounts it ([SpeciesSpeedPage]).

    JavaScript strings are modelled by [string]: a sequence of 8-bit code
    units, read as the code points U+0000..U+00FF.  JavaScript numbers are
    modelled by [number]: NaN, the two infinities, and the finite values as
    exact rationals.  A CSV row (a [Record<string, string>]) is a
    [gmap string string].  Handlers that touch the outside world return the
    list of effects they perform, in program order. *)

From Stdlib Require Import ZArith QArith Ascii String List Bool Lia.
From stdpp Require Import gmap strings.
Import ListNotations.

Local Open Scope string_scope.
Local Open Scope Z_scope.

(* ===================================================================== *)
(** ** JavaScript values used by the components *)
(* ===================================================================== *)

Module JS.

(** *** Strings *)

Definition code (c : ascii) : Z := Z.of_N (N_of_ascii c).

(** [WhiteSpace] and [LineTerminator] code points below U+0100: TAB, LF, VT,
    FF, CR, SPACE and NO-BREAK SPACE.  These are what [String.prototype.trim]
    strips. *)
Definition is_whitespace (c : ascii) : bool :=
  let n := code c in
  ((9 <=? n) && (n <=? 13)) || (n =? 32) || (n =? 160).

(** Dropping the leading (resp. trailing) code units that satisfy [p]. *)
Fixpoint strip_start (p : ascii -> bool) (s : string) : string :=
  match s with
  | EmptyString => EmptyString
  | String c s' => if p c then strip_start p s' else s
  end.

Fixpoint strip_end (p : ascii -> bool) (s : string) : string :=
  match s with
  | EmptyString => EmptyString
  | String c s' =>
      match strip_end p s' with
      | EmptyString => if p c then EmptyString else String c EmptyString
      | t => String c t
      end
  end.

Definition trimStart (s : string) : string := strip_start is_whitespace s.
Definition trimEnd (s : string) : string := strip_end is_whitespace s.
Definition trim (s : string) : string := trimEnd (trimStart s).

Fixpoint all_whitespace (s : string) : bool :=
  match s with
  | EmptyString => true
  | String c s' => is_whitespace c && all_whitespace s'
  end.

Definition is_empty (s : string) : bool :=
  match s with EmptyString => true | _ => false end.

(** Truthiness of a string: every string but the empty one. *)
Definition truthy_string (s : string) : bool := negb (is_empty s).

(** Truthiness of a [string | null]. *)
Definition truthy (v : option string) : bool :=
  match v with Some s => truthy_string s | None => false end.

(** [String(v)] for [v : string | undefined]. *)
Definition String_ (v : option string) : string :=
  match v with Some s => s | None => "undefined" end.

(** [toLowerCase] on the modelled range: the letters A..Z, and the capital
    letters U+00C0..U+00DE but for the multiplication sign U+00D7, move up
    by 32. *)
Definition lower_char (c : ascii) : ascii :=
  let n := code c in
  if ((65 <=? n) && (n <=? 90))
     || ((192 <=? n) && (n <=? 222) && negb (n =? 215))
  then ascii_of_N (Z.to_N (n + 32)) else c.

Fixpoint toLowerCase (s : string) : string :=
  match s with
  | EmptyString => EmptyString
  | String c s' => String (lower_char c) (toLowerCase s')
  end.

(** *** Numbers *)

Inductive number : Type :=
| NaN
| Inf (negative : bool)
| Num (q : Q).

Definition Number_isFinite (n : number) : bool :=
  match n with Num _ => true | _ => false end.

Definition Number_isInteger (n : number) : bool :=
  match n with
  | Num q => Z.rem (Qnum q) (Zpos (Qden q)) =? 0
  | _ => false
  end.

(** [a < b] on numbers; false as soon as one side is NaN. *)
Definition ltb (a b : number) : bool :=
  match a, b with
  | NaN, _ | _, NaN => false
  | Inf true, Inf true => false
  | Inf true, _ => true
  | _, Inf true => false
  | Inf false, _ => false
  | _, Inf false => true
  | Num p, Num q => negb (Qle_bool q p)
  end.

(** [a >= b] on numbers; false as soon as one side is NaN. *)
Definition geb (a b : number) : bool :=
  match a, b with
  | NaN, _ | _, NaN => false
  | _, _ => negb (ltb a b)
  end.

(** *** [Number.parseFloat] *)

Definition digit (c : ascii) : option Z :=
  let n := code c in
  if (48 <=? n) && (n <=? 57) then Some (n - 48) else None.

(** Reads the longest run of decimal digits: the value read so far, the
    number of digits read, and what is left of the input. *)
Fixpoint digits (s : string) (acc : Z) (count : Z) : Z * Z * string :=
  match s with
  | EmptyString => (acc, count, s)
  | String c s' =>
      match digit c with
      | Some d => digits s' (10 * acc + d) (count + 1)
      | None => (acc, count, s)
      end
  end.

(** An optional sign: [true] for a leading minus. *)
Definition sign (s : string) : bool * string :=
  match s with
  | String "-" s' => (true, s')
  | String "+" s' => (false, s')
  | _ => (false, s)
  end.

(** [ExponentPart]: [e] or [E], an optional sign and at least one digit.
    An exponent indicator without digits is not part of the literal. *)
Definition exponent (s : string) : Z :=
  match s with
  | String c s' =>
      if (Ascii.eqb c "e" || Ascii.eqb c "E")%bool then
        let '(neg, s'') := sign s' in
        let '(e, n, _) := digits s'' 0 0 in
        if n =? 0 then 0 else if neg then - e else e
      else 0
  | EmptyString => 0
  end.

(** The least magnitude that rounds to an infinity in binary64 (round to
    nearest, ties to even): half way between the largest finite value and
    [2^1024]. *)
Definition overflow_threshold : Z := 2 ^ 1024 - 2 ^ 970.

(** [mantissa * 10^scale], as a number.  A finite result keeps the exact
    decimal value; a magnitude at or above [overflow_threshold] is an
    infinity, as it is for a double. *)
Definition decimal (negative : bool) (mantissa scale : Z) : number :=
  let q : Q :=
    if 0 <=? scale then Qmake (mantissa * 10 ^ scale) 1
    else Qmake mantissa (Z.to_pos (10 ^ (- scale))) in
  if Qle_bool (Qmake overflow_threshold 1) q then Inf negative
  else Num (if negative then Qopp q else q).

Definition starts_with (p s : string) : bool := String.prefix p s.

(** [StrUnsignedDecimalLiteral], after the sign. *)
Definition unsigned_literal (negative : bool) (s : string) : number :=
  if starts_with "Infinity" s then Inf negative
  else
    let '(int_part, n_int, rest) := digits s 0 0 in
    match rest with
    | String "." rest' =>
        let '(mant, n_frac, rest'') := digits rest' int_part 0 in
        if (n_int =? 0) && (n_frac =? 0) then NaN
        else decimal negative mant (exponent rest'' - n_frac)
    | _ =>
        if n_int =? 0 then NaN
        else decimal negative int_part (exponent rest)
    end.

Definition parseFloat (s : string) : number :=
  let '(negative, rest) := sign (trimStart s) in
  unsigned_literal negative rest.

End JS.


(* ===================================================================== *)
(** ** The speed chart: [animal-speed-graph.tsx] *)
(* ===================================================================== *)

Module Chart.
Import JS.

(** [AnimalDatum].  The [diet] field is whatever string the cast
    [as AnimalDatum["diet"]] lets through. *)
Record AnimalDatum : Type := mkDatum {
  name : string;
  speed : number;
  diet : string
}.

(** The callback of [rows.map] in the parse effect. *)
Definition to_datum (r : gmap string string) : AnimalDatum :=
  {| name := trim (String_ (r !! "Animal"));
     speed := parseFloat (String_ (r !! "Average Speed (km/h)"));
     diet := toLowerCase (trim (String_ (r !! "Diet"))) |}.

(** The callback of [.filter]: [d.name && Number.isFinite(d.speed)]. *)
Definition keep (d : AnimalDatum) : bool :=
  truthy_string (name d) && Number_isFinite (speed d).

(** [parsed], as computed from the rows [d3.csv] resolves to. *)
Definition parse_rows (rows : list (gmap string string)) : list AnimalDatum :=
  List.filter keep (List.map to_datum rows).

(** [d3.max(values)]: [undefined] for no comparable value, NaN skipped. *)
Fixpoint d3_max_from (max : option number) (values : list number) : option number :=
  match values with
  | [] => max
  | v :: vs =>
      let max' :=
        match max with
        | None => if geb v v then Some v else None
        | Some m => if ltb m v then Some v else Some m
        end in
      d3_max_from max' vs
  end.

Definition d3_max (values : list number) : option number := d3_max_from None values.

(** [d3.scaleOrdinal]: a key outside the domain is appended to it, and the
    range is cycled through.  Returns the colour and the domain after the
    call. *)
Definition color_range : list string := ["#66c2a5"; "#fc8d62"; "#8da0cb"].

Fixpoint index_of (k : string) (dom : list string) (i : nat) : option nat :=
  match dom with
  | [] => None
  | d :: dom' => if String.eqb d k then Some i else index_of k dom' (S i)
  end.

Definition color (dom : list string) (k : string) : string * list string :=
  match index_of k dom 0 with
  | Some i => (nth (i mod length color_range) color_range "", dom)
  | None => (nth (length dom mod length color_range) color_range "", (dom ++ [k])%list)
  end.

(** What the render effect does to the container, in program order.  The
    pixel geometry the d3 scales compute is left to d3; an operation records
    the data it is built from. *)
Inductive DrawOp : Type :=
| ClearContainer
| AppendSvg (width height : Z)
| AppendPlotGroup (left top : Z)
| ScaleBand (domain : list string) (range_hi : Z)
| D3Max (values : list number)
| ScaleLinear (upper : option number) (range_lo : Z)
| ScaleOrdinal (domain range : list string)
| Bar (animal : string) (value : number) (fill : string)
| AxisBottom (translate_y : Z)
| AxisLeft
| LegendGroup (left top : Z)
| LegendItem (offset_y : Z) (label fill : string).

Definition width : Z := 960.
Definition height : Z := 500.
Definition margin_top : Z := 20.
Definition margin_right : Z := 120.
Definition margin_bottom : Z := 100.
Definition margin_left : Z := 60.
Definition innerW : Z := width - margin_left - margin_right.
Definition innerH : Z := height - margin_top - margin_bottom.

(** One [rect] per datum; the colour scale's domain is threaded through. *)
Fixpoint bars (dom : list string) (data : list AnimalDatum) : list DrawOp * list string :=
  match data with
  | [] => ([], dom)
  | d :: ds =>
      let '(fill, dom') := color dom (diet d) in
      let '(ops, dom'') := bars dom' ds in
      (Bar (name d) (speed d) fill :: ops, dom'')
  end.

Fixpoint legend_items (dom : list string) (i : Z) (labels : list string) : list DrawOp :=
  match labels with
  | [] => []
  | l :: ls =>
      let '(fill, dom') := color dom l in
      LegendItem (i * 20) l fill :: legend_items dom' (i + 1) ls
  end.

Definition diets : list string := ["herbivore"; "omnivore"; "carnivore"].

(** The second effect.  [el] tells whether [ref.current] is attached. *)
Definition render_effect (el : bool) (data : list AnimalDatum) : list DrawOp :=
  if negb el || (Z.of_nat (length data) =? 0) then []
  else
    let speeds := List.map speed data in
    let '(rects, dom) := bars diets data in
    ([ ClearContainer;
       AppendSvg width height;
       AppendPlotGroup margin_left margin_top;
       ScaleBand (List.map name data) innerW;
       D3Max speeds;
       ScaleLinear (d3_max speeds) innerH;
       ScaleOrdinal diets color_range ]
     ++ rects
     ++ [ AxisBottom innerH;
          AxisLeft;
          LegendGroup (width - margin_right + 20) margin_top ]
     ++ legend_items dom 0 diets)%list.

(** What the mounted component does. *)
Inductive ChartEvent : Type :=
| FetchCsv (url : string)
| SetData (data : list AnimalDatum)
| Draw (op : DrawOp).

(** A mount of [AnimalSpeedGraph]: the first effect starts the fetch, the
    second runs on the initial empty [data]; when the fetch resolves to
    [rows], [setData(parsed)] re-runs the second effect on [parsed]. *)
Definition AnimalSpeedGraph (el : bool) (rows : list (gmap string string)) : list ChartEvent :=
  let parsed := parse_rows rows in
  ([FetchCsv "/sample_animals.csv"]
   ++ List.map Draw (render_effect el [])
   ++ [SetData parsed]
   ++ List.map Draw (render_effect el parsed))%list.

Definition is_fetch (e : ChartEvent) : bool :=
  match e with FetchCsv _ => true | _ => false end.

Definition is_draw (e : ChartEvent) : bool :=
  match e with Draw _ => true | _ => false end.

End Chart.

(* ===================================================================== *)
(** ** The speed page: [SpeciesSpeedPage] *)
(* ===================================================================== *)

Module Page.

(** The session object of the authentication service; the page only tests
    it for presence. *)
Record Session : Type := mkSession { user_id : string }.

Inductive PageEvent : Type :=
| GetSession
| Redirect (path : string)
| RenderPage
| Mounted (e : Chart.ChartEvent).

(** [supabase.auth.getSession()] resolves to [session]; [redirect] does not
    return, so nothing after it runs. *)
Definition SpeciesSpeedPage (session : option Session)
    (el : bool) (rows : list (gmap string string)) : list PageEvent :=
  GetSession ::
  match session with
  | None => [Redirect "/"]
  | Some _ => RenderPage :: List.map Mounted (Chart.AnimalSpeedGraph el rows)
  end.

Definition is_data_fetch (e : PageEvent) : bool :=
  match e with Mounted (Chart.FetchCsv _) => true | _ => false end.

Definition is_chart (e : PageEvent) : bool :=
  match e with Mounted _ => true | _ => false end.

End Page.

(* ===================================================================== *)
(** ** [new URL(s)], as far as [z.string().url()] depends on it *)
(* ===================================================================== *)

Module Url.
Import JS.

(** The checks of the URL parser (no base URL) that do not look inside the
    host: leading and trailing C0 controls and spaces are stripped, tabs and
    newlines removed; a scheme [alpha (alnum | + | - | .)* :] is required;
    an [http], [https], [ws], [wss] or [ftp] URL needs a non-empty
    authority.  Host, port and IPv6 syntax are not examined, so the model
    accepts at least what the parser accepts: a string rejected here makes
    [new URL] throw. *)

Definition is_c0_or_space (c : ascii) : bool := code c <=? 32.

Definition is_tab_or_newline (c : ascii) : bool :=
  let n := code c in (n =? 9) || (n =? 10) || (n =? 13).

Fixpoint remove_tab_newline (s : string) : string :=
  match s with
  | EmptyString => EmptyString
  | String c s' =>
      if is_tab_or_newline c then remove_tab_newline s'
      else String c (remove_tab_newline s')
  end.

Definition is_alpha (c : ascii) : bool :=
  let n := code c in
  ((65 <=? n) && (n <=? 90)) || ((97 <=? n) && (n <=? 122)).

Definition is_scheme_char (c : ascii) : bool :=
  let n := code c in
  is_alpha c || ((48 <=? n) && (n <=? 57)) || (n =? 43) || (n =? 45) || (n =? 46).

(** Scheme state: the lower-cased scheme read so far, then what follows the
    colon. *)
Fixpoint scheme_state (s : string) (buffer : string) : option (string * string) :=
  match s with
  | EmptyString => None
  | String c s' =>
      if Ascii.eqb c ":" then Some (buffer, s')
      else if is_scheme_char c
           then scheme_state s' (String.append buffer (String (lower_char c) EmptyString))
           else None
  end.

(** Scheme start state. *)
Definition scheme_start (s : string) : option (string * string) :=
  match s with
  | String c s' =>
      if is_alpha c then scheme_state s' (String (lower_char c) EmptyString) else None
  | EmptyString => None
  end.

Definition needs_authority (scheme : string) : bool :=
  existsb (String.eqb scheme) ["http"; "https"; "ws"; "wss"; "ftp"].

Definition is_slash (c : ascii) : bool := Ascii.eqb c "/" || Ascii.eqb c "\".

(** Special authority (ignore) slashes state, then the first code point of
    the authority. *)
Definition has_authority (rest : string) : bool :=
  match strip_start is_slash rest with
  | EmptyString => false
  | String c _ => negb (Ascii.eqb c "?" || Ascii.eqb c "#")
  end.

Definition canParse (s : string) : bool :=
  let input := remove_tab_newline (strip_end is_c0_or_space (strip_start is_c0_or_space s)) in
  match scheme_start input with
  | None => false
  | Some (scheme, rest) =>
      if needs_authority scheme then has_authority rest else true
  end.

End Url.

(* ===================================================================== *)
(** ** The edit dialog: [edit-species-dialog.tsx] *)
(* ===================================================================== *)

Module Dialog.
Import JS.

(** [kingdoms]. *)
Inductive Kingdom : Type :=
| Animalia | Plantae | Fungi | Protista | Archaea | Bacteria.

(** Modelled from the spec: the row type [Species] is declared in
    [lib/schema], which the component imports.  The fields are those of the
    spec's species record; a nullable column is an [option].  The component
    tests [species.author] for truthiness, so both a missing and an empty
    author are representable. *)
Module Species.
Record t : Type := mk {
  id : Z;
  scientific_name : string;
  common_name : option string;
  kingdom : Kingdom;
  total_population : option number;
  image : option string;
  description : option string;
  author : option string
}.
End Species.

(** [FormData]: the values the form holds, and the values the schema
    produces. *)
Record FormData : Type := mkForm {
  scientific_name : string;
  common_name : option string;
  kingdom : Kingdom;
  total_population : option number;
  image : option string;
  description : option string
}.

Inductive Field : Type :=
| F_scientific_name | F_common_name | F_kingdom
| F_total_population | F_image | F_description.

(** *** [speciesSchema], field by field.  [None] is a validation issue. *)

(** [z.string().trim().min(1).transform((val) => val?.trim())] *)
Definition parse_scientific_name (val : string) : option string :=
  let trimmed := trim val in
  if 1 <=? Z.of_nat (String.length trimmed) then Some (trim trimmed) else None.

(** [(val) => (!val || val.trim() === "" ? null : val.trim())] *)
Definition blank_to_null (val : option string) : option string :=
  if negb (truthy val) then None
  else match val with
       | Some s => if String.eqb (trim s) "" then None else Some (trim s)
       | None => None
       end.

(** [z.string().nullable().transform(...)] *)
Definition parse_optional_text (val : option string) : option (option string) :=
  Some (blank_to_null val).

(** [z.string().url().nullable().transform(...)]: the transform runs on a
    value that passed the [url] check, or on [null]. *)
Definition parse_image (val : option string) : option (option string) :=
  match val with
  | None => Some (blank_to_null None)
  | Some s => if Url.canParse s then Some (blank_to_null (Some s)) else None
  end.

Definition zero : number := Num 0.
Definition one : number := Num 1.

(** [z.number().int().positive().min(1).nullable()]; [z.number()] refuses
    NaN. *)
Definition parse_total_population (val : option number) : option (option number) :=
  match val with
  | None => Some None
  | Some n =>
      let is_number := match n with NaN => false | _ => true end in
      if is_number && Number_isInteger n && ltb zero n && geb n one
      then Some (Some n) else None
  end.

Inductive SafeParse : Type :=
| Success (data : FormData)
| Failure (issues : list Field).

Definition issue {A : Type} (f : Field) (r : option A) : list Field :=
  match r with Some _ => [] | None => [f] end.

(** [speciesSchema.safeParse]; the issues come in the order of the schema's
    keys.  [kingdom] is typed by the enumeration and always passes. *)
Definition speciesSchema (input : FormData) : SafeParse :=
  let sn := parse_scientific_name (scientific_name input) in
  let cn := parse_optional_text (common_name input) in
  let tp := parse_total_population (total_population input) in
  let im := parse_image (image input) in
  let de := parse_optional_text (description input) in
  match sn, cn, tp, im, de with
  | Some sn', Some cn', Some tp', Some im', Some de' =>
      Success {| scientific_name := sn'; common_name := cn'; kingdom := kingdom input;
                 total_population := tp'; image := im'; description := de' |}
  | _, _, _, _, _ =>
      Failure (issue F_scientific_name sn ++ issue F_common_name cn
               ++ issue F_total_population tp ++ issue F_image im
               ++ issue F_description de)%list
  end.

Definition defaultValues : FormData :=
  {| scientific_name := ""; common_name := None; kingdom := Animalia;
     total_population := None; image := None; description := None |}.

(** The values the form is (re)set to from the row. *)
Definition prefill (species : Species.t) : FormData :=
  {| scientific_name := Species.scientific_name species;
     common_name := Species.common_name species;
     kingdom := Species.kingdom species;
     total_population := Species.total_population species;
     image := Species.image species;
     description := Species.description species |}.

(** *** State and effects *)

Inductive Variant : Type := Default | Destructive.

Record Toast : Type := mkToast {
  title : string;
  message : string;
  variant : Variant
}.

(** The [error] of the backend's response, when there is one. *)
Record PostgrestError : Type := mkError { error_message : string }.

Inductive Effect : Type :=
| Update (table : string) (values : FormData) (id : Z)
| RouterRefresh
| ShowToast (t : Toast).

(** Component state: [open], the form's values, and the fields the last
    submission found an issue in. *)
Record State : Type := mkState {
  open : bool;
  values : FormData;
  errors : list Field
}.

(** The response of [supabase.from(table).update(values).eq("id", id)]. *)
Definition Backend : Type := string -> FormData -> Z -> option PostgrestError.

Definition is_update (e : Effect) : bool :=
  match e with Update _ _ _ => true | _ => false end.

Definition is_refresh (e : Effect) : bool :=
  match e with RouterRefresh => true | _ => false end.

(** [species.author && species.author !== userId] *)
Definition not_author (species : Species.t) (userId : string) : bool :=
  truthy (Species.author species)
  && match Species.author species with
     | Some a => negb (String.eqb a userId)
     | None => true
     end.

Definition onSubmit (userId : string) (species : Species.t) (backend : Backend)
    (st : State) (input : FormData) : State * list Effect :=
  if not_author species userId then
    (st, [ShowToast {| title := "Something went wrong";
                       message := "You can only edit species you created.";
                       variant := Destructive |}])
  else
    let request := Update "species" input (Species.id species) in
    match backend "species" input (Species.id species) with
    | Some error =>
        (st, [request;
              ShowToast {| title := "Something went wrong.";
                           message := error_message error;
                           variant := Destructive |}])
    | None =>
        ({| open := false; values := defaultValues; errors := [] |},
         [request;
          RouterRefresh;
          ShowToast {| title := "Species edited!";
                       message := String.append "Successfully edited "
                                    (String.append (scientific_name input) ".");
                       variant := Default |}])
    end.

(** [form.handleSubmit(onSubmit)]: the resolver runs the schema; the handler
    is called with the parsed data only when there is no issue. *)
Definition handleSubmit (userId : string) (species : Species.t) (backend : Backend)
    (st : State) : State * list Effect :=
  match speciesSchema (values st) with
  | Failure issues =>
      ({| open := open st; values := values st; errors := issues |}, [])
  | Success data =>
      onSubmit userId species backend
        {| open := open st; values := values st; errors := [] |} data
  end.

(** *** What the component renders *)

Inductive Node : Type :=
| Text (s : string)
| DialogNode (is_open : bool) (trigger : string) (form : option FormData).

(** The children of the outer [div]; the dialog's content (the form) is
    mounted while the dialog is open. *)
Definition EditSpeciesDialog (species : Species.t) (st : State) : list Node :=
  ([Text " "]
   ++ (if 16 <? Species.id species
       then [DialogNode (open st) "Edit Species"
               (if open st then Some (values st) else None)]
       else [])
   ++ [Text " "])%list.

Definition is_dialog (n : Node) : bool :=
  match n with DialogNode _ _ _ => true | Text _ => false end.

Definition has_form (n : Node) : bool :=
  match n with DialogNode _ _ (Some _) => true | _ => false end.

(** What a user can do to the component. *)
Inductive Action : Type :=
| ClickTrigger
| ClickCancel
| Change (v : FormData)
| Submit.

(** An action reaches a handler only through an element that is rendered:
    the trigger belongs to the dialog, the fields and both buttons to the
    form.  The trigger opens a closed dialog, and opening resets the form to
    the row's values. *)
Definition dispatch (userId : string) (species : Species.t) (backend : Backend)
    (st : State) (a : Action) : State * list Effect :=
  let view := EditSpeciesDialog species st in
  match a with
  | ClickTrigger =>
      if existsb is_dialog view && negb (open st)
      then ({| open := true; values := prefill species; errors := [] |}, [])
      else (st, [])
  | ClickCancel =>
      if existsb has_form view
      then ({| open := false; values := values st; errors := errors st |}, [])
      else (st, [])
  | Change v =>
      if existsb has_form view
      then ({| open := open st; values := v; errors := errors st |}, [])
      else (st, [])
  | Submit =>
      if existsb has_form view then handleSubmit userId species backend st
      else (st, [])
  end.

Fixpoint run (userId : string) (species : Species.t) (backend : Backend)
    (st : State) (actions : list Action) : State * list Effect :=
  match actions with
  | [] => (st, [])
  | a :: rest =>
      let '(st', effects) := dispatch userId species backend st a in
      let '(st'', effects') := run userId species backend st' rest in
      (st'', (effects ++ effects')%list)
  end.

End Dialog.

(* ===================================================================== *)
(** ** Concrete inputs used below *)
(* ===================================================================== *)

Module Samples.

(** Two rows keyed by the columns of the CSV resource. *)
Definition csv_rows : list (gmap string string) :=
  [ {[ "Animal" := "Cheetah"; "Average Speed (km/h)" := "120"; "Diet" := "Carnivore" ]};
    {[ "Animal" := ""; "Average Speed (km/h)" := "40"; "Diet" := "Herbivore" ]} ].

(** The same two rows with the speed under the key [Speed]. *)
Definition rows_keyed_by_Speed : list (gmap string string) :=
  [ {[ "Animal" := "Cheetah"; "Speed" := "120"; "Diet" := "Carnivore" ]};
    {[ "Animal" := ""; "Speed" := "40"; "Diet" := "Herbivore" ]} ].

Definition cheetah : Chart.AnimalDatum :=
  {| Chart.name := "Cheetah"; Chart.speed := JS.Num 120; Chart.diet := "carnivore" |}.

(** Rows that are all filtered out: no name, or no finite speed. *)
Definition filtered_rows : list (gmap string string) :=
  [ {[ "Animal" := "  "; "Average Speed (km/h)" := "40"; "Diet" := "Herbivore" ]};
    {[ "Animal" := "Snail"; "Average Speed (km/h)" := "slow"; "Diet" := "Herbivore" ]} ].

(** A row past the first sixteen, written by [author]. *)
Definition species_by (author : option string) : Dialog.Species.t :=
  {| Dialog.Species.id := 17;
     Dialog.Species.scientific_name := "Cavia porcellus";
     Dialog.Species.common_name := Some "Guinea pig";
     Dialog.Species.kingdom := Dialog.Animalia;
     Dialog.Species.total_population := Some (JS.Num 300000);
     Dialog.Species.image := None;
     Dialog.Species.description := None;
     Dialog.Species.author := author |}.

(** One of the first sixteen rows. *)
Definition early_species : Dialog.Species.t :=
  {| Dialog.Species.id := 16;
     Dialog.Species.scientific_name := "Panthera leo";
     Dialog.Species.common_name := Some "Lion";
     Dialog.Species.kingdom := Dialog.Animalia;
     Dialog.Species.total_population := None;
     Dialog.Species.image := None;
     Dialog.Species.description := None;
     Dialog.Species.author := Some "user-1" |}.

(** Form values with blank common name and description. *)
Definition form_with (sci : string) (population : option JS.number)
    (img : option string) : Dialog.FormData :=
  {| Dialog.scientific_name := sci;
     Dialog.common_name := Some "";
     Dialog.kingdom := Dialog.Animalia;
     Dialog.total_population := population;
     Dialog.image := img;
     Dialog.description := Some "   " |}.

Definition valid_form : Dialog.FormData :=
  form_with " Cavia porcellus " (Some (JS.Num 1)) (Some "https://example.org/cavy.jpg").

Definition valid_data : Dialog.FormData :=
  {| Dialog.scientific_name := "Cavia porcellus";
     Dialog.common_name := None;
     Dialog.kingdom := Dialog.Animalia;
     Dialog.total_population := Some (JS.Num 1);
     Dialog.image := Some "https://example.org/cavy.jpg";
     Dialog.description := None |}.

Definition open_with (v : Dialog.FormData) : Dialog.State :=
  {| Dialog.open := true; Dialog.values := v; Dialog.errors := [] |}.

(** A backend that accepts every update, and one that refuses every update. *)
Definition accepting : Dialog.Backend := fun _ _ _ => None.
Definition refusing : Dialog.Backend :=
  fun _ _ _ => Some {| Dialog.error_message := "permission denied" |}.

End Samples.

(* ===================================================================== *)
(** ** The population input: [onChange] of the number field *)
(* ===================================================================== *)

Module Input.
Import JS.

(** [ExponentPart] where there is one, and what follows it.  An exponent
    indicator without digits is left in the remainder. *)
Definition exponent_rest (s : string) : Z * string :=
  match s with
  | String c s' =>
      if (Ascii.eqb c "e" || Ascii.eqb c "E")%bool then
        let '(neg, s'') := sign s' in
        let '(e, n, rest) := digits s'' 0 0 in
        if n =? 0 then (0, s) else (if neg then - e else e, rest)
      else (0, s)
  | EmptyString => (0, s)
  end.

(** [StrUnsignedDecimalLiteral], which has to be the whole string. *)
Definition whole_unsigned_literal (negative : bool) (s : string) : number :=
  if String.eqb s "Infinity" then Inf negative
  else
    let '(int_part, n_int, rest) := digits s 0 0 in
    match rest with
    | String "." rest' =>
        let '(mant, n_frac, rest'') := digits rest' int_part 0 in
        if (n_int =? 0) && (n_frac =? 0) then NaN
        else
          let '(e, tail) := exponent_rest rest'' in
          if is_empty tail then decimal negative mant (e - n_frac) else NaN
    | _ =>
        if n_int =? 0 then NaN
        else
          let '(e, tail) := exponent_rest rest in
          if is_empty tail then decimal negative int_part e else NaN
    end.

(** A digit of a binary, octal or hexadecimal literal. *)
Definition radix_digit (radix : Z) (c : ascii) : option Z :=
  let n := code c in
  let v :=
    if (48 <=? n) && (n <=? 57) then n - 48
    else if (97 <=? n) && (n <=? 102) then n - 87
    else if (65 <=? n) && (n <=? 70) then n - 55
    else radix in
  if v <? radix then Some v else None.

Fixpoint radix_digits (radix : Z) (s : string) (acc : Z) (count : Z) : Z * Z * string :=
  match s with
  | EmptyString => (acc, count, s)
  | String c s' =>
      match radix_digit radix c with
      | Some d => radix_digits radix s' (radix * acc + d) (count + 1)
      | None => (acc, count, s)
      end
  end.

Definition radix_of (prefix : ascii) : option Z :=
  if (Ascii.eqb prefix "x" || Ascii.eqb prefix "X")%bool then Some 16
  else if (Ascii.eqb prefix "o" || Ascii.eqb prefix "O")%bool then Some 8
  else if (Ascii.eqb prefix "b" || Ascii.eqb prefix "B")%bool then Some 2
  else None.

(** [NonDecimalIntegerLiteral]: [0x], [0o] or [0b] and at least one digit of
    that radix, up to the end of the string. *)
Definition non_decimal_literal (s : string) : option number :=
  match s with
  | String "0" (String prefix ds) =>
      match radix_of prefix with
      | Some radix =>
          let '(v, n, rest) := radix_digits radix ds 0 0 in
          if (0 <? n) && is_empty rest then Some (decimal false v 0) else None
      | None => None
      end
  | _ => None
  end.

(** [+text], that is [StringToNumber]: white space around the literal is
    dropped, the empty string is 0, and a string that is not a numeric
    literal as a whole is NaN. *)
Definition StringToNumber (text : string) : number :=
  let t := trim text in
  if is_empty t then Num 0
  else
    match non_decimal_literal t with
    | Some n => n
    | None => let '(negative, rest) := sign t in whole_unsigned_literal negative rest
    end.

(** [value ?? ""]: what the inputs of the optional text fields display. *)
Definition shown (value : option string) : string :=
  match value with Some s => s | None => "" end.

Definition set_total_population (v : Dialog.FormData) (n : option number) : Dialog.FormData :=
  {| Dialog.scientific_name := Dialog.scientific_name v;
     Dialog.common_name := Dialog.common_name v;
     Dialog.kingdom := Dialog.kingdom v;
     Dialog.total_population := n;
     Dialog.image := Dialog.image v;
     Dialog.description := Dialog.description v |}.

(** [(event) => field.onChange(+event.target.value)], with [text] the value
    of the input element. *)
Definition onPopulationChange (st : Dialog.State) (text : string) : Dialog.State :=
  {| Dialog.open := Dialog.open st;
     Dialog.values := set_total_population (Dialog.values st) (Some (StringToNumber text));
     Dialog.errors := Dialog.errors st |}.

End Input.

(* ===================================================================== *)
(** ** Reading traces and validated data *)
(* ===================================================================== *)

Module Read.

(** The animal and the value of a bar. *)
Definition bar_key (op : Chart.DrawOp) : option (string * JS.number) :=
  match op with Chart.Bar a v _ => Some (a, v) | _ => None end.

Definition bar_fill (op : Chart.DrawOp) : option string :=
  match op with Chart.Bar _ _ f => Some f | _ => None end.

Definition legend_key (op : Chart.DrawOp) : option (Z * string * string) :=
  match op with Chart.LegendItem y l f => Some (y, l, f) | _ => None end.

(** The drawing operation of a chart event. *)
Definition drawn (e : Chart.ChartEvent) : option Chart.DrawOp :=
  match e with Chart.Draw op => Some op | _ => None end.

(** The colour at an index of the scale's domain: the range, cycled. *)
Definition range_colour (i : nat) : string :=
  nth (i mod length Chart.color_range) Chart.color_range "".

Definition is_toast (e : Dialog.Effect) : bool :=
  match e with Dialog.ShowToast _ => true | _ => false end.

Definition is_submit (a : Dialog.Action) : bool :=
  match a with Dialog.Submit => true | _ => false end.

Definition is_trigger (a : Dialog.Action) : bool :=
  match a with Dialog.ClickTrigger => true | _ => false end.

(** A string of decimal digits only. *)
Fixpoint all_digits (s : string) : bool :=
  match s with
  | EmptyString => true
  | String c s' =>
      match JS.digit c with Some _ => all_digits s' | None => false end
  end.

(** Whether the code unit [c] occurs in [s]. *)
Fixpoint mentions (c : ascii) (s : string) : bool :=
  match s with
  | EmptyString => false
  | String d s' => Ascii.eqb d c || mentions c s'
  end.

(** An optional text that is null, or trimmed and not blank. *)
Definition null_or_trimmed (v : option string) : Prop :=
  match v with
  | None => True
  | Some t => JS.trim t = t /\ JS.all_whitespace t = false
  end.

(** A population that is null, or an integer that is at least 1. *)
Definition null_or_positive (v : option JS.number) : Prop :=
  match v with
  | None => True
  | Some n => exists (q : Q) (z : Z), n = JS.Num q /\ (q == inject_Z z)%Q /\ 1 <= z
  end.

(** Form data as the schema hands it to [onSubmit]. *)
Definition normalised (data : Dialog.FormData) : Prop :=
  JS.trim (Dialog.scientific_name data) = Dialog.scientific_name data
  /\ JS.all_whitespace (Dialog.scientific_name data) = false
  /\ null_or_trimmed (Dialog.common_name data)
  /\ null_or_positive (Dialog.total_population data)
  /\ null_or_trimmed (Dialog.image data)
  /\ null_or_trimmed (Dialog.description data).

End Read.

Module MoreSamples.

(** The guinea pig row, with an image. *)
Definition pictured_species : Dialog.Species.t :=
  {| Dialog.Species.id := 23;
     Dialog.Species.scientific_name := "Cavia porcellus";
     Dialog.Species.common_name := Some "Guinea pig";
     Dialog.Species.kingdom := Dialog.Animalia;
     Dialog.Species.total_population := Some (JS.Num 300000);
     Dialog.Species.image := Some "https://example.org/cavy.jpg";
     Dialog.Species.description := None;
     Dialog.Species.author := Some "user-1" |}.

(** A row without the column of names, and one without the column of speeds. *)
Definition nameless_row : gmap string string :=
  {[ "Average Speed (km/h)" := "97"; "Diet" := "Herbivore" ]}.

Definition speedless_row : gmap string string :=
  {[ "Animal" := "Pronghorn"; "Diet" := "Herbivore" ]}.

(** Three animals, one of them with a diet outside the legend. *)
Definition mixed_rows : list (gmap string string) :=
  [ {[ "Animal" := "Cheetah"; "Average Speed (km/h)" := "120"; "Diet" := "Carnivore" ]};
    {[ "Animal" := "Swift"; "Average Speed (km/h)" := "111.6"; "Diet" := "Insectivore" ]};
    {[ "Animal" := "Pronghorn"; "Average Speed (km/h)" := "88.5"; "Diet" := " herbivore " ]} ].

End MoreSamples.

(* ===================================================================== *)
(** ** Facts about trimming *)
(* ===================================================================== *)

Section Strip.
Variable p : ascii -> bool.

Fixpoint all_of (s : string) : bool :=
  match s with
  | EmptyString => true
  | String c s' => p c && all_of s'
  end.

Lemma strip_start_empty (s : string) :
  JS.strip_start p s = EmptyString <-> all_of s = true.
Proof.
  induction s as [|c s IH]; simpl; [tauto|].
  destruct (p c); simpl; [exact IH|].
  split; discriminate.
Qed.

Lemma strip_end_empty (s : string) :
  JS.strip_end p s = EmptyString <-> all_of s = true.
Proof.
  induction s as [|c s IH]; simpl; [tauto|].
  destruct (JS.strip_end p s) eqn:E.
  - destruct (p c); simpl.
    + tauto.
    + split; discriminate.
  - split; [discriminate|].
    intros H. apply andb_true_iff in H as [_ H].
    apply IH in H. discriminate.
Qed.

Lemma all_of_strip_start (s : string) :
  all_of (JS.strip_start p s) = true -> all_of s = true.
Proof.
  induction s as [|c s IH]; simpl; [tauto|].
  destruct (p c) eqn:E; simpl; [exact IH|].
  rewrite E. discriminate.
Qed.

Lemma strip_start_idem (s : string) :
  JS.strip_start p (JS.strip_start p s) = JS.strip_start p s.
Proof.
  induction s as [|c s IH]; simpl; [reflexivity|].
  destruct (p c) eqn:E; [exact IH|].
  simpl. now rewrite E.
Qed.

Lemma strip_end_idem (s : string) :
  JS.strip_end p (JS.strip_end p s) = JS.strip_end p s.
Proof.
  induction s as [|c s IH]; simpl; [reflexivity|].
  destruct (JS.strip_end p s) as [|d t] eqn:E.
  - destruct (p c) eqn:Ec; simpl; [reflexivity|]. now rewrite Ec.
  - simpl in *. now rewrite IH.
Qed.

Lemma strip_start_end_comm (s : string) :
  JS.strip_start p (JS.strip_end p s) = JS.strip_end p (JS.strip_start p s).
Proof.
  induction s as [|c s IH]; [reflexivity|].
  cbn [JS.strip_start JS.strip_end].
  destruct (p c) eqn:Ec.
  - rewrite <- IH.
    destruct (JS.strip_end p s) as [|d t]; [reflexivity|].
    cbn [JS.strip_start]. now rewrite Ec.
  - cbn [JS.strip_end].
    destruct (JS.strip_end p s) as [|d t]; rewrite ?Ec; cbn [JS.strip_start];
      now rewrite Ec.
Qed.

End Strip.

Lemma all_of_whitespace (s : string) :
  all_of JS.is_whitespace s = JS.all_whitespace s.
Proof. induction s as [|c s IH]; simpl; [reflexivity|]. now rewrite IH. Qed.

Lemma trim_empty_iff (s : string) :
  JS.trim s = EmptyString <-> JS.all_whitespace s = true.
Proof.
  unfold JS.trim, JS.trimEnd, JS.trimStart.
  rewrite strip_end_empty, <- (all_of_whitespace s). split.
  - apply all_of_strip_start.
  - intros H. apply strip_start_empty in H. now rewrite H.
Qed.

Lemma trim_idem (s : string) : JS.trim (JS.trim s) = JS.trim s.
Proof.
  unfold JS.trim, JS.trimEnd, JS.trimStart.
  rewrite strip_start_end_comm, strip_start_idem.
  apply strip_end_idem.
Qed.

Lemma is_empty_true (s : string) : JS.is_empty s = true <-> s = EmptyString.
Proof. destruct s; simpl; split; congruence. Qed.

Lemma truthy_string_true (s : string) : JS.truthy_string s = true <-> s <> EmptyString.
Proof. destruct s; simpl; split; intros H; try discriminate; try reflexivity. now elim H. Qed.

Lemma isFinite_true (n : JS.number) :
  JS.Number_isFinite n = true <-> exists q, n = JS.Num q.
Proof.
  destruct n; simpl; split; try discriminate; eauto.
  - intros [q H]; discriminate.
  - intros [q H]; discriminate.
Qed.

(* ===================================================================== *)
(** ** The CSV parse step *)
(* ===================================================================== *)

Lemma keep_true (d : Chart.AnimalDatum) :
  Chart.keep d = true <->
  Chart.name d <> EmptyString /\ exists q, Chart.speed d = JS.Num q.
Proof.
  unfold Chart.keep.
  now rewrite andb_true_iff, truthy_string_true, isFinite_true.
Qed.

Lemma parse_rows_cons (r : gmap string string) (rows : list (gmap string string)) :
  Chart.parse_rows (r :: rows) =
  if Chart.keep (Chart.to_datum r)
  then Chart.to_datum r :: Chart.parse_rows rows
  else Chart.parse_rows rows.
Proof. reflexivity. Qed.

Lemma parse_rows_all_kept (rows : list (gmap string string)) :
  Forall (fun d => Chart.keep d = true) (Chart.parse_rows rows).
Proof.
  induction rows as [|r rows IH]; [constructor|].
  rewrite parse_rows_cons.
  destruct (Chart.keep (Chart.to_datum r)) eqn:E; [constructor|]; assumption.
Qed.

(** C5.  The parse step maps a row to (trimmed name, parsed speed, trimmed
    lower-cased diet) and keeps, in order, exactly the rows whose name is not
    empty and whose speed is finite; the two rows Cheetah / blank name, with
    their speeds in the CSV's speed column [Average Speed (km/h)], parse to
    the single entry Cheetah. *)
Theorem C5_parse_keeps_named_finite_rows :
  (forall r,
     Chart.to_datum r =
     {| Chart.name := JS.trim (JS.String_ (r !! "Animal"));
        Chart.speed := JS.parseFloat (JS.String_ (r !! "Average Speed (km/h)"));
        Chart.diet := JS.toLowerCase (JS.trim (JS.String_ (r !! "Diet"))) |})
  /\ Chart.parse_rows [] = []
  /\ (forall r rows,
        Chart.parse_rows (r :: rows) =
        if negb (JS.is_empty (Chart.name (Chart.to_datum r)))
           && JS.Number_isFinite (Chart.speed (Chart.to_datum r))
        then Chart.to_datum r :: Chart.parse_rows rows
        else Chart.parse_rows rows)
  /\ (forall rows d,
        In d (Chart.parse_rows rows) <->
        exists r, In r rows /\ d = Chart.to_datum r
                  /\ Chart.name d <> EmptyString
                  /\ exists q, Chart.speed d = JS.Num q)
  /\ Chart.parse_rows Samples.csv_rows = [Samples.cheetah].
Proof.
  repeat split.
  - intros H. unfold Chart.parse_rows in H.
    apply filter_In in H as [Hin Hk].
    apply in_map_iff in Hin as [r [Hr Hin]].
    apply keep_true in Hk as [Hn Hs].
    exists r. auto.
  - intros [r [Hin [Hd [Hn Hs]]]].
    unfold Chart.parse_rows. apply filter_In. split.
    + subst d. now apply in_map.
    + apply keep_true. auto.
Qed.

(** Rows that carry their speed under another key than the CSV's speed
    column have no speed for the code: it reads [undefined], parses NaN and
    drops them. *)
Lemma rows_keyed_by_Speed_parse_to_nothing :
  Chart.parse_rows Samples.rows_keyed_by_Speed = []
  /\ ~ (exists d, Chart.parse_rows Samples.rows_keyed_by_Speed = [d]
                  /\ Chart.name d = "Cheetah").
Proof.
  assert (H : Chart.parse_rows Samples.rows_keyed_by_Speed = []) by (vm_compute; reflexivity).
  split; [exact H|].
  intros [d [Hd _]]. rewrite H in Hd. discriminate.
Qed.

(* ===================================================================== *)
(** ** The render effect *)
(* ===================================================================== *)

Lemma render_effect_nil (el : bool) : Chart.render_effect el [] = [].
Proof. unfold Chart.render_effect. now rewrite orb_true_r. Qed.

Lemma render_effect_detached (data : list Chart.AnimalDatum) :
  Chart.render_effect false data = [].
Proof. reflexivity. Qed.

Lemma bars_are_bars (data : list Chart.AnimalDatum) (dom : list string) (op : Chart.DrawOp) :
  In op (fst (Chart.bars dom data)) -> exists a v f, op = Chart.Bar a v f.
Proof.
  revert dom. induction data as [|d ds IH]; intros dom; simpl; [tauto|].
  destruct (Chart.color dom (Chart.diet d)) as [fill dom'].
  specialize (IH dom').
  destruct (Chart.bars dom' ds) as [ops dom'']. simpl in *.
  intros [H | H]; eauto.
Qed.

Lemma legend_items_are_items (labels : list string) (dom : list string) (i : Z)
    (op : Chart.DrawOp) :
  In op (Chart.legend_items dom i labels) -> exists y l f, op = Chart.LegendItem y l f.
Proof.
  revert dom i. induction labels as [|l ls IH]; intros dom i; simpl; [tauto|].
  destruct (Chart.color dom l) as [fill dom'].
  intros [H | H]; eauto.
Qed.

(** The only [d3.max] call of the render effect is on the speeds of the data
    it was given, and the effect gets that far only for non-empty data. *)
Lemma d3_max_reached (el : bool) (data : list Chart.AnimalDatum) (values : list JS.number) :
  In (Chart.D3Max values) (Chart.render_effect el data) ->
  values = List.map Chart.speed data /\ data <> [].
Proof.
  unfold Chart.render_effect.
  destruct (negb el || (Z.of_nat (length data) =? 0)) eqn:G; [intros []|].
  apply orb_false_iff in G as [_ G]. apply Z.eqb_neq in G.
  destruct (Chart.bars Chart.diets data) as [rects dom] eqn:B.
  intros H.
  assert (Hne : data <> []) by (intros ->; apply G; reflexivity).
  split; [|exact Hne].
  apply in_app_or in H as [H | H].
  - simpl in H.
    repeat (destruct H as [H | H]; [try discriminate; try (injection H as H; now subst)|]).
    destruct H.
  - apply in_app_or in H as [H | H].
    + pose proof (bars_are_bars data Chart.diets (Chart.D3Max values)) as P.
      rewrite B in P. destruct (P H) as (a & v & f & E). discriminate.
    + apply in_app_or in H as [H | H].
      * simpl in H. repeat (destruct H as [H | H]; [discriminate|]). destruct H.
      * apply legend_items_are_items in H as (y & l & f & E). discriminate.
Qed.

Lemma d3_max_from_finite (values : list JS.number) (max : option JS.number) :
  Forall (fun v => JS.Number_isFinite v = true) values ->
  (exists q, max = Some (JS.Num q)) ->
  exists q, Chart.d3_max_from max values = Some (JS.Num q).
Proof.
  intros F. revert max. induction F as [|v vs Hv F IH]; intros max [q ->]; simpl; [eauto|].
  apply isFinite_true in Hv as [r ->].
  apply IH.
  match goal with |- context [if ?b then _ else _] => destruct b end; eauto.
Qed.

(** On the data the parse step produces, the maximum the linear scale is
    built from is a finite number. *)
Lemma d3_max_of_parsed (rows : list (gmap string string)) :
  Chart.parse_rows rows <> [] ->
  exists q, Chart.d3_max (List.map Chart.speed (Chart.parse_rows rows)) = Some (JS.Num q).
Proof.
  intros Hne.
  pose proof (parse_rows_all_kept rows) as K.
  destruct (Chart.parse_rows rows) as [|d ds]; [now elim Hne|].
  apply Forall_cons_iff in K as [Kd K].
  apply keep_true in Kd as [_ [q Eq]].
  unfold Chart.d3_max. cbn [List.map Chart.d3_max_from]. rewrite Eq.
  assert (G : JS.geb (JS.Num q) (JS.Num q) = true).
  { unfold JS.geb, JS.ltb. rewrite negb_involutive. apply Qle_bool_iff, Qle_refl. }
  rewrite G. apply d3_max_from_finite; [|eauto].
  apply Forall_map. eapply Forall_impl; [exact K|].
  intros a Ka. apply keep_true in Ka as [_ [r Er]]. simpl. rewrite Er. reflexivity.
Qed.

(** C6.  When every row is filtered out (in particular when there is no
    row), the render effect returns at its guard: the component performs no
    drawing operation at all, on mount and after the data is set, and the
    maximum is never taken of an empty list. *)
Theorem C6_empty_dataset_draws_nothing
    (el : bool) (rows : list (gmap string string))
    (Hempty : Chart.parse_rows rows = []) :
  Chart.render_effect el (Chart.parse_rows rows) = []
  /\ List.filter Chart.is_draw (Chart.AnimalSpeedGraph el rows) = []
  /\ Chart.AnimalSpeedGraph el rows = [Chart.FetchCsv "/sample_animals.csv"; Chart.SetData []]
  /\ (forall data values,
        In (Chart.D3Max values) (Chart.render_effect el data) -> values <> []).
Proof.
  assert (E : Chart.AnimalSpeedGraph el rows
              = [Chart.FetchCsv "/sample_animals.csv"; Chart.SetData []]).
  { unfold Chart.AnimalSpeedGraph. rewrite Hempty, render_effect_nil. reflexivity. }
  repeat split.
  - rewrite Hempty. apply render_effect_nil.
  - rewrite E. reflexivity.
  - exact E.
  - intros data values H.
    apply d3_max_reached in H as [-> Hne].
    destruct data; [now elim Hne | discriminate].
Qed.

Lemma C6_empty_dataset_draws_nothing_witness :
  Chart.parse_rows Samples.filtered_rows = []
  /\ List.filter Chart.is_draw (Chart.AnimalSpeedGraph true Samples.filtered_rows) = [].
Proof.
  split.
  - vm_compute. reflexivity.
  - apply (C6_empty_dataset_draws_nothing true Samples.filtered_rows).
    vm_compute. reflexivity.
Defined.

(* ===================================================================== *)
(** ** The speed page *)
(* ===================================================================== *)

(** C7.  Without a session the page looks the session up and redirects, and
    does nothing else: the chart is not mounted and the CSV is not fetched.
    The chart is mounted, and the CSV fetched, exactly when a session
    exists. *)
Theorem C7_no_session_redirects_before_fetch :
  forall (el : bool) (rows : list (gmap string string)),
    Page.SpeciesSpeedPage None el rows = [Page.GetSession; Page.Redirect "/"]
    /\ existsb Page.is_data_fetch (Page.SpeciesSpeedPage None el rows) = false
    /\ existsb Page.is_chart (Page.SpeciesSpeedPage None el rows) = false
    /\ (forall session,
          existsb Page.is_chart (Page.SpeciesSpeedPage session el rows)
          = match session with Some _ => true | None => false end)
    /\ (forall session,
          existsb Page.is_data_fetch (Page.SpeciesSpeedPage session el rows)
          = match session with Some _ => true | None => false end).
Proof.
  intros el rows. repeat split.
  - intros [s|]; reflexivity.
  - intros [s|]; reflexivity.
Qed.

(* ===================================================================== *)
(** ** The author guard of [onSubmit] *)
(* ===================================================================== *)

Lemma not_author_true (species : Dialog.Species.t) (userId : string) :
  Dialog.not_author species userId = true <->
  exists a, Dialog.Species.author species = Some a /\ a <> EmptyString /\ a <> userId.
Proof.
  unfold Dialog.not_author.
  destruct (Dialog.Species.author species) as [a|]; simpl.
  - rewrite andb_true_iff, truthy_string_true, negb_true_iff, String.eqb_neq.
    split.
    + intros [H1 H2]. exists a. auto.
    + intros [b [E [H1 H2]]]. injection E as <-. auto.
  - split; [discriminate|]. intros [a [E _]]. discriminate.
Qed.

Lemma handleSubmit_cases (userId : string) (species : Dialog.Species.t)
    (backend : Dialog.Backend) (st : Dialog.State) :
  (exists issues,
     Dialog.speciesSchema (Dialog.values st) = Dialog.Failure issues
     /\ Dialog.handleSubmit userId species backend st
        = ({| Dialog.open := Dialog.open st; Dialog.values := Dialog.values st;
              Dialog.errors := issues |}, []))
  \/ (exists data,
        Dialog.speciesSchema (Dialog.values st) = Dialog.Success data
        /\ Dialog.handleSubmit userId species backend st
           = Dialog.onSubmit userId species backend
               {| Dialog.open := Dialog.open st; Dialog.values := Dialog.values st;
                  Dialog.errors := [] |} data).
Proof.
  unfold Dialog.handleSubmit.
  destruct (Dialog.speciesSchema (Dialog.values st)) as [data|issues]; eauto.
Qed.

(** C1, for a record that has an author.  When the record's author is
    present (not null, not empty) and differs from the acting user id, no
    submission sends an update; and when the form's values pass validation,
    so that [onSubmit] runs, the submission does nothing but show the
    destructive notification: the dialog stays open and the values are
    kept. *)
Theorem C1_other_author_is_rejected
    (userId : string) (species : Dialog.Species.t) (backend : Dialog.Backend)
    (st : Dialog.State) (input : Dialog.FormData) (a : string)
    (Hauthor : Dialog.Species.author species = Some a)
    (Hpresent : a <> EmptyString)
    (Hother : a <> userId) :
  Dialog.onSubmit userId species backend st input
  = (st, [Dialog.ShowToast
            {| Dialog.title := "Something went wrong";
               Dialog.message := "You can only edit species you created.";
               Dialog.variant := Dialog.Destructive |}])
  /\ existsb Dialog.is_update (snd (Dialog.onSubmit userId species backend st input)) = false
  /\ existsb Dialog.is_update (snd (Dialog.handleSubmit userId species backend st)) = false
  /\ (forall data,
        Dialog.speciesSchema (Dialog.values st) = Dialog.Success data ->
        Dialog.handleSubmit userId species backend st
        = ({| Dialog.open := Dialog.open st; Dialog.values := Dialog.values st;
              Dialog.errors := [] |},
           [Dialog.ShowToast
              {| Dialog.title := "Something went wrong";
                 Dialog.message := "You can only edit species you created.";
                 Dialog.variant := Dialog.Destructive |}])).
Proof.
  assert (G : Dialog.not_author species userId = true)
    by (apply not_author_true; eauto).
  assert (E : forall st' input',
             Dialog.onSubmit userId species backend st' input'
             = (st', [Dialog.ShowToast
                        {| Dialog.title := "Something went wrong";
                           Dialog.message := "You can only edit species you created.";
                           Dialog.variant := Dialog.Destructive |}])).
  { intros st' input'. unfold Dialog.onSubmit. now rewrite G. }
  split; [apply E|]. split; [|split].
  - now rewrite E.
  - destruct (handleSubmit_cases userId species backend st)
      as [(issues & _ & ->) | (data & _ & ->)]; [reflexivity|].
    now rewrite E.
  - intros data V. unfold Dialog.handleSubmit. rewrite V. apply E.
Qed.

Lemma C1_other_author_is_rejected_witness :
  Dialog.handleSubmit "user-2" (Samples.species_by (Some "user-1")) Samples.accepting
    (Samples.open_with Samples.valid_form)
  = (Samples.open_with Samples.valid_form,
     [Dialog.ShowToast
        {| Dialog.title := "Something went wrong";
           Dialog.message := "You can only edit species you created.";
           Dialog.variant := Dialog.Destructive |}]).
Proof.
  destruct (C1_other_author_is_rejected "user-2" (Samples.species_by (Some "user-1"))
              Samples.accepting (Samples.open_with Samples.valid_form)
              Samples.valid_data "user-1")
    as (_ & _ & _ & H).
  - reflexivity.
  - discriminate.
  - discriminate.
  - apply (H Samples.valid_data). reflexivity.
Defined.

(** C1 as worded: a record whose author is the empty string differs from
    every real user id, yet the guard lets the submission through and the
    update is sent; and a submission that fails validation never reaches the
    guard, so a user who is not the author is then shown no notification. *)
Lemma C1_empty_author_is_not_guarded :
  Dialog.Species.author (Samples.species_by (Some "")) <> Some "user-2"
  /\ snd (Dialog.onSubmit "user-2" (Samples.species_by (Some "")) Samples.accepting
            (Samples.open_with Samples.valid_form) Samples.valid_data)
     = [Dialog.Update "species" Samples.valid_data 17;
        Dialog.RouterRefresh;
        Dialog.ShowToast
          {| Dialog.title := "Species edited!";
             Dialog.message := "Successfully edited Cavia porcellus.";
             Dialog.variant := Dialog.Default |}]
  /\ ~ (forall userId species backend st input,
          Dialog.Species.author species <> Some userId ->
          existsb Dialog.is_update
            (snd (Dialog.onSubmit userId species backend st input)) = false)
  /\ Dialog.handleSubmit "user-2" (Samples.species_by (Some "user-1")) Samples.accepting
       (Samples.open_with (Samples.form_with "   " None None))
     = ({| Dialog.open := true;
           Dialog.values := Samples.form_with "   " None None;
           Dialog.errors := [Dialog.F_scientific_name] |}, []).
Proof.
  split; [discriminate|]. split; [reflexivity|]. split; [|reflexivity].
  intros H.
  specialize (H "user-2" (Samples.species_by (Some "")) Samples.accepting
                (Samples.open_with Samples.valid_form) Samples.valid_data).
  assert (F : Dialog.Species.author (Samples.species_by (Some "")) <> Some "user-2")
    by discriminate.
  specialize (H F). discriminate.
Qed.

(* ===================================================================== *)
(** ** The schema, field by field *)
(* ===================================================================== *)

Ltac case_options :=
  repeat match goal with
         | |- context [match ?x with Some _ => _ | None => _ end] => destruct x
         end.

Ltac schema_issue :=
  unfold Dialog.speciesSchema, Dialog.parse_optional_text;
  repeat match goal with
         | H : _ = None |- _ => rewrite H; clear H
         end;
  case_options;
  eexists; (split; [reflexivity | unfold Dialog.issue; case_options; simpl; auto 10]).

Lemma scientific_name_issue (input : Dialog.FormData) :
  Dialog.parse_scientific_name (Dialog.scientific_name input) = None ->
  exists issues, Dialog.speciesSchema input = Dialog.Failure issues
                 /\ In Dialog.F_scientific_name issues.
Proof. intros H. schema_issue. Qed.

Lemma total_population_issue (input : Dialog.FormData) :
  Dialog.parse_total_population (Dialog.total_population input) = None ->
  exists issues, Dialog.speciesSchema input = Dialog.Failure issues
                 /\ In Dialog.F_total_population issues.
Proof. intros H. schema_issue. Qed.

Lemma image_issue (input : Dialog.FormData) :
  Dialog.parse_image (Dialog.image input) = None ->
  exists issues, Dialog.speciesSchema input = Dialog.Failure issues
                 /\ In Dialog.F_image issues.
Proof. intros H. schema_issue. Qed.

(** The transform of the optional text fields: blank to null, trimmed
    otherwise. *)
Lemma blank_to_null_spec (val : option string) :
  Dialog.blank_to_null val =
  match val with
  | None => None
  | Some s => if JS.all_whitespace s then None else Some (JS.trim s)
  end.
Proof.
  destruct val as [s|]; [|reflexivity].
  unfold Dialog.blank_to_null, JS.truthy.
  destruct s as [|c s]; [reflexivity|].
  cbn [JS.truthy_string JS.is_empty negb].
  destruct (JS.all_whitespace (String c s)) eqn:W.
  - apply trim_empty_iff in W. now rewrite W.
  - destruct (String.eqb_spec (JS.trim (String c s)) "") as [E|E]; [|reflexivity].
    apply trim_empty_iff in E. congruence.
Qed.

(** Common name and description: always valid, blank normalised to null. *)
Lemma parse_optional_text_spec (val : option string) :
  Dialog.parse_optional_text val =
  Some match val with
       | None => None
       | Some s => if JS.all_whitespace s then None else Some (JS.trim s)
       end.
Proof. unfold Dialog.parse_optional_text. now rewrite blank_to_null_spec. Qed.

Lemma whitespace_not_alpha (c : ascii) :
  JS.is_whitespace c = true -> Url.is_alpha c = false.
Proof.
  unfold JS.is_whitespace, Url.is_alpha. generalize (JS.code c). intros n.
  repeat match goal with
         | |- context [(?a <=? ?b)%Z] => destruct (Z.leb_spec a b)
         | |- context [(?a =? ?b)%Z] => destruct (Z.eqb_spec a b)
         end; simpl; intros; try reflexivity; try discriminate; lia.
Qed.

Lemma all_of_strip_start_keep (p q : ascii -> bool) (s : string) :
  all_of p s = true -> all_of p (JS.strip_start q s) = true.
Proof.
  induction s as [|c s IH]; simpl; [tauto|].
  intros H. destruct (q c); [|exact H].
  apply andb_true_iff in H as [_ H]. auto.
Qed.

Lemma all_of_strip_end_keep (p q : ascii -> bool) (s : string) :
  all_of p s = true -> all_of p (JS.strip_end q s) = true.
Proof.
  induction s as [|c s IH]; simpl; [tauto|].
  intros H. apply andb_true_iff in H as [Hc H]. specialize (IH H).
  destruct (JS.strip_end q s) as [|d t].
  - destruct (q c); simpl; [reflexivity|]. now rewrite Hc.
  - simpl in *. now rewrite Hc, IH.
Qed.

Lemma all_of_remove_tab_newline (p : ascii -> bool) (s : string) :
  all_of p s = true -> all_of p (Url.remove_tab_newline s) = true.
Proof.
  induction s as [|c s IH]; simpl; [tauto|].
  intros H. apply andb_true_iff in H as [Hc H].
  destruct (Url.is_tab_or_newline c); simpl; auto.
  now rewrite Hc, IH.
Qed.

(** No blank string is a URL: there is no scheme in it. *)
Lemma canParse_blank (s : string) :
  JS.all_whitespace s = true -> Url.canParse s = false.
Proof.
  intros H. rewrite <- all_of_whitespace in H.
  unfold Url.canParse.
  pose proof (all_of_remove_tab_newline _ _
                (all_of_strip_end_keep _ Url.is_c0_or_space _
                   (all_of_strip_start_keep _ Url.is_c0_or_space _ H))) as W.
  destruct (Url.remove_tab_newline _) as [|c t]; [reflexivity|].
  simpl in W. apply andb_true_iff in W as [Wc _].
  unfold Url.scheme_start. now rewrite (whitespace_not_alpha c Wc).
Qed.

(** The image field: null passes as null, a blank string is refused by the
    [url] check before the transform can normalise it. *)
Lemma parse_image_blank (s : string) :
  JS.all_whitespace s = true -> Dialog.parse_image (Some s) = None.
Proof. intros H. unfold Dialog.parse_image. now rewrite (canParse_blank s H). Qed.

Lemma parse_image_url (s : string) :
  Url.canParse s = true -> Dialog.parse_image (Some s) = Some (Some (JS.trim s)).
Proof.
  intros H. unfold Dialog.parse_image. rewrite H, blank_to_null_spec.
  destruct (JS.all_whitespace s) eqn:W; [|reflexivity].
  apply canParse_blank in W. congruence.
Qed.

(** C2, at the image field.  Blank common name and description are valid
    and become null, and a null image stays null; but an empty or
    whitespace-only image is an issue on the image field, and the submission
    stops there. *)
Theorem C2_blank_image_is_rejected :
  Dialog.speciesSchema (Samples.form_with "Cavia porcellus" None None)
  = Dialog.Success
      {| Dialog.scientific_name := "Cavia porcellus"; Dialog.common_name := None;
         Dialog.kingdom := Dialog.Animalia; Dialog.total_population := None;
         Dialog.image := None; Dialog.description := None |}
  /\ Dialog.speciesSchema (Samples.form_with "Cavia porcellus" None (Some ""))
     = Dialog.Failure [Dialog.F_image]
  /\ Dialog.speciesSchema (Samples.form_with "Cavia porcellus" None (Some "   "))
     = Dialog.Failure [Dialog.F_image]
  /\ Dialog.handleSubmit "user-1" (Samples.species_by (Some "user-1")) Samples.accepting
       (Samples.open_with (Samples.form_with "Cavia porcellus" None (Some "")))
     = ({| Dialog.open := true;
           Dialog.values := Samples.form_with "Cavia porcellus" None (Some "");
           Dialog.errors := [Dialog.F_image] |}, []).
Proof. repeat split. Qed.

(* ===================================================================== *)
(** ** The scientific name *)
(* ===================================================================== *)

Lemma parse_scientific_name_spec (s : string) :
  Dialog.parse_scientific_name s =
  if JS.all_whitespace s then None else Some (JS.trim s).
Proof.
  unfold Dialog.parse_scientific_name.
  destruct (JS.all_whitespace s) eqn:W.
  - apply trim_empty_iff in W. now rewrite W.
  - rewrite trim_idem.
    destruct (JS.trim s) as [|c t] eqn:E.
    + apply trim_empty_iff in E. congruence.
    + cbn [String.length]. destruct (Z.leb_spec 1 (Z.of_nat (S (String.length t)))); [reflexivity|lia].
Qed.

(** C3.  When the scientific name is empty or only whitespace, validation
    fails with an issue on that field and the submission has no effect: no
    update is sent, whatever the backend.  A name that is not blank passes
    the field's validation, as its trimmed value. *)
Theorem C3_blank_scientific_name_fails
    (userId : string) (species : Dialog.Species.t) (backend : Dialog.Backend)
    (st : Dialog.State)
    (Hblank : JS.all_whitespace (Dialog.scientific_name (Dialog.values st)) = true) :
  (exists issues,
     Dialog.speciesSchema (Dialog.values st) = Dialog.Failure issues
     /\ In Dialog.F_scientific_name issues
     /\ Dialog.handleSubmit userId species backend st
        = ({| Dialog.open := Dialog.open st; Dialog.values := Dialog.values st;
              Dialog.errors := issues |}, []))
  /\ existsb Dialog.is_update (snd (Dialog.handleSubmit userId species backend st)) = false
  /\ (forall s, JS.all_whitespace s = false ->
                Dialog.parse_scientific_name s = Some (JS.trim s)
                /\ JS.trim s <> EmptyString).
Proof.
  assert (N : Dialog.parse_scientific_name (Dialog.scientific_name (Dialog.values st)) = None)
    by (rewrite parse_scientific_name_spec; now rewrite Hblank).
  destruct (scientific_name_issue _ N) as (issues & E & Hin).
  assert (S : Dialog.handleSubmit userId species backend st
              = ({| Dialog.open := Dialog.open st; Dialog.values := Dialog.values st;
                    Dialog.errors := issues |}, []))
    by (unfold Dialog.handleSubmit; now rewrite E).
  split; [exists issues; auto|]. split; [now rewrite S|].
  intros s W. split.
  - rewrite parse_scientific_name_spec. now rewrite W.
  - intros T. apply trim_empty_iff in T. congruence.
Qed.

Lemma C3_blank_scientific_name_fails_witness :
  JS.all_whitespace "   " = true
  /\ existsb Dialog.is_update
       (snd (Dialog.handleSubmit "user-1" (Samples.species_by (Some "user-1"))
               Samples.accepting
               (Samples.open_with (Samples.form_with "   " None None)))) = false.
Proof.
  split; [reflexivity|].
  apply (C3_blank_scientific_name_fails "user-1" (Samples.species_by (Some "user-1"))
           Samples.accepting (Samples.open_with (Samples.form_with "   " None None))).
  reflexivity.
Defined.

(* ===================================================================== *)
(** ** The total population *)
(* ===================================================================== *)

Lemma parse_total_population_cases (n : JS.number) :
  Dialog.parse_total_population (Some n) = Some (Some n)
  \/ Dialog.parse_total_population (Some n) = None.
Proof.
  unfold Dialog.parse_total_population.
  match goal with |- context [if ?b then _ else _] => destruct b end; auto.
Qed.

Lemma parse_total_population_num (q : Q) :
  Dialog.parse_total_population (Some (JS.Num q)) = Some (Some (JS.Num q))
  <-> exists z : Z, (q == inject_Z z)%Q /\ 1 <= z.
Proof.
  unfold Dialog.parse_total_population, Dialog.zero, Dialog.one,
    JS.Number_isInteger, JS.geb, JS.ltb, Qle_bool.
  destruct q as [n d]. cbn [Qnum Qden andb negb].
  pose proof (Z.quot_rem' n (Zpos d)) as QR.
  split.
  - intros H.
    destruct (Z.eqb_spec (Z.rem n (Zpos d)) 0) as [R|R]; [|discriminate].
    destruct (Z.leb_spec (n * 1) (0 * Zpos d)) as [L|L]; [discriminate|].
    destruct (Z.leb_spec (1 * Zpos d) (n * 1)) as [G|G]; [|discriminate].
    exists (Z.quot n (Zpos d)). unfold Qeq. cbn [Qnum Qden inject_Z].
    split; nia.
  - intros [z [E Hz]]. unfold Qeq in E. cbn [Qnum Qden inject_Z] in E.
    assert (En : n = z * Zpos d) by lia.
    assert (R : Z.rem n (Zpos d) = 0) by (rewrite En; apply Z.rem_mul; lia).
    rewrite R. cbn [Z.eqb].
    destruct (Z.leb_spec (n * 1) (0 * Zpos d)) as [L|L]; [nia|].
    destruct (Z.leb_spec (1 * Zpos d) (n * 1)) as [G|G]; [reflexivity|nia].
Qed.

Lemma parse_total_population_nonpositive (q : Q) :
  (q <= 0)%Q -> Dialog.parse_total_population (Some (JS.Num q)) = None.
Proof.
  intros H.
  destruct (parse_total_population_cases (JS.Num q)) as [P|P]; [|exact P].
  apply parse_total_population_num in P as [z [E Hz]].
  rewrite E in H. unfold Qle in H. cbn [Qnum Qden inject_Z] in H. lia.
Qed.

(** C4.  A population of zero or below fails validation, on the field and
    on the whole form; a population of 1 passes; null passes.  A number passes
    exactly when it is an integer that is at least 1, and then it is passed on
    as it is. *)
Theorem C4_population_is_a_positive_integer :
  (forall q, (q <= 0)%Q -> Dialog.parse_total_population (Some (JS.Num q)) = None)
  /\ Dialog.parse_total_population (Some (JS.Inf true)) = None
  /\ Dialog.parse_total_population (Some (JS.Num 1)) = Some (Some (JS.Num 1))
  /\ Dialog.parse_total_population None = Some None
  /\ (forall n,
        Dialog.parse_total_population (Some n) = Some (Some n)
        <-> exists q z, n = JS.Num q /\ (q == inject_Z z)%Q /\ 1 <= z)
  /\ (forall n,
        Dialog.parse_total_population (Some n) = Some (Some n)
        \/ Dialog.parse_total_population (Some n) = None)
  /\ (forall input q,
        Dialog.total_population input = Some (JS.Num q) -> (q <= 0)%Q ->
        exists issues, Dialog.speciesSchema input = Dialog.Failure issues
                       /\ In Dialog.F_total_population issues)
  /\ Dialog.speciesSchema (Samples.form_with "Cavia porcellus" (Some (JS.Num 0)) None)
     = Dialog.Failure [Dialog.F_total_population]
  /\ Dialog.speciesSchema (Samples.form_with "Cavia porcellus" (Some (JS.Num (-5))) None)
     = Dialog.Failure [Dialog.F_total_population]
  /\ Dialog.speciesSchema (Samples.form_with "Cavia porcellus" (Some (JS.Num 1)) None)
     = Dialog.Success
         {| Dialog.scientific_name := "Cavia porcellus"; Dialog.common_name := None;
            Dialog.kingdom := Dialog.Animalia;
            Dialog.total_population := Some (JS.Num 1);
            Dialog.image := None; Dialog.description := None |}.
Proof.
  split; [exact parse_total_population_nonpositive|].
  do 3 (split; [reflexivity|]).
  split.
  { intros n. split.
    - intros H. destruct n as [|b|q]; try discriminate.
      apply parse_total_population_num in H as [z Hz]. eauto.
    - intros (q & z & -> & Hz). apply parse_total_population_num. eauto. }
  split; [exact parse_total_population_cases|].
  split.
  { intros input q Hq Hle. apply total_population_issue.
    rewrite Hq. now apply parse_total_population_nonpositive. }
  repeat split.
Qed.

(* ===================================================================== *)
(** ** Outcomes of a submission *)
(* ===================================================================== *)

Lemma not_author_own (species : Dialog.Species.t) (userId : string) :
  Dialog.Species.author species = Some userId ->
  Dialog.not_author species userId = false.
Proof.
  intros H. unfold Dialog.not_author. rewrite H.
  rewrite String.eqb_refl. apply andb_false_r.
Qed.

(** C8.  When validation passes, the author guard passes and the backend
    reports no error, the submission sends one update, for the row whose id
    is the record's id and with the validated data, then the dialog is closed
    and the form reset, the route is refreshed and the success notification
    is shown. *)
Theorem C8_successful_edit_closes_and_refreshes
    (userId : string) (species : Dialog.Species.t) (backend : Dialog.Backend)
    (st : Dialog.State) (data : Dialog.FormData)
    (Hvalid : Dialog.speciesSchema (Dialog.values st) = Dialog.Success data)
    (Hauthor : Dialog.not_author species userId = false)
    (Hok : backend "species" data (Dialog.Species.id species) = None) :
  Dialog.handleSubmit userId species backend st
  = ({| Dialog.open := false; Dialog.values := Dialog.defaultValues; Dialog.errors := [] |},
     [Dialog.Update "species" data (Dialog.Species.id species);
      Dialog.RouterRefresh;
      Dialog.ShowToast
        {| Dialog.title := "Species edited!";
           Dialog.message :=
             String.append "Successfully edited "
               (String.append (Dialog.scientific_name data) ".");
           Dialog.variant := Dialog.Default |}])
  /\ Dialog.open (fst (Dialog.handleSubmit userId species backend st)) = false
  /\ List.filter Dialog.is_update (snd (Dialog.handleSubmit userId species backend st))
     = [Dialog.Update "species" data (Dialog.Species.id species)]
  /\ existsb Dialog.is_refresh (snd (Dialog.handleSubmit userId species backend st)) = true.
Proof.
  assert (E : Dialog.handleSubmit userId species backend st
              = ({| Dialog.open := false; Dialog.values := Dialog.defaultValues;
                    Dialog.errors := [] |},
                 [Dialog.Update "species" data (Dialog.Species.id species);
                  Dialog.RouterRefresh;
                  Dialog.ShowToast
                    {| Dialog.title := "Species edited!";
                       Dialog.message :=
                         String.append "Successfully edited "
                           (String.append (Dialog.scientific_name data) ".");
                       Dialog.variant := Dialog.Default |}])).
  { unfold Dialog.handleSubmit, Dialog.onSubmit. now rewrite Hvalid, Hauthor, Hok. }
  rewrite E. repeat split.
Qed.

Lemma C8_successful_edit_closes_and_refreshes_witness :
  Dialog.handleSubmit "user-1" (Samples.species_by (Some "user-1")) Samples.accepting
    (Samples.open_with Samples.valid_form)
  = ({| Dialog.open := false; Dialog.values := Dialog.defaultValues; Dialog.errors := [] |},
     [Dialog.Update "species" Samples.valid_data 17;
      Dialog.RouterRefresh;
      Dialog.ShowToast
        {| Dialog.title := "Species edited!";
           Dialog.message := "Successfully edited Cavia porcellus.";
           Dialog.variant := Dialog.Default |}]).
Proof.
  apply (C8_successful_edit_closes_and_refreshes "user-1"
           (Samples.species_by (Some "user-1")) Samples.accepting
           (Samples.open_with Samples.valid_form) Samples.valid_data).
  - reflexivity.
  - reflexivity.
  - reflexivity.
Defined.

(** C9.  When the backend answers the update with an error, [onSubmit] shows
    the error's message in a destructive notification and returns: the state
    is as before (the dialog open, the form's values kept), the route is not
    refreshed, and the update was sent once.  The same holds for the
    submission as a whole. *)
Theorem C9_backend_error_aborts
    (userId : string) (species : Dialog.Species.t) (backend : Dialog.Backend)
    (st : Dialog.State) (input : Dialog.FormData) (error : Dialog.PostgrestError)
    (Hauthor : Dialog.not_author species userId = false)
    (Herror : backend "species" input (Dialog.Species.id species) = Some error) :
  Dialog.onSubmit userId species backend st input
  = (st, [Dialog.Update "species" input (Dialog.Species.id species);
          Dialog.ShowToast
            {| Dialog.title := "Something went wrong.";
               Dialog.message := Dialog.error_message error;
               Dialog.variant := Dialog.Destructive |}])
  /\ existsb Dialog.is_refresh (snd (Dialog.onSubmit userId species backend st input)) = false
  /\ length (List.filter Dialog.is_update
               (snd (Dialog.onSubmit userId species backend st input))) = 1%nat
  /\ (Dialog.speciesSchema (Dialog.values st) = Dialog.Success input ->
      let after := Dialog.handleSubmit userId species backend st in
      Dialog.open (fst after) = Dialog.open st
      /\ Dialog.values (fst after) = Dialog.values st
      /\ snd after = snd (Dialog.onSubmit userId species backend st input)).
Proof.
  assert (E : forall st',
             Dialog.onSubmit userId species backend st' input
             = (st', [Dialog.Update "species" input (Dialog.Species.id species);
                      Dialog.ShowToast
                        {| Dialog.title := "Something went wrong.";
                           Dialog.message := Dialog.error_message error;
                           Dialog.variant := Dialog.Destructive |}])).
  { intros st'. unfold Dialog.onSubmit. now rewrite Hauthor, Herror. }
  rewrite E. do 3 (split; [reflexivity|]).
  intros Hvalid. unfold Dialog.handleSubmit. rewrite Hvalid, E. repeat split.
Qed.

Lemma C9_backend_error_aborts_witness :
  Dialog.onSubmit "user-1" (Samples.species_by (Some "user-1")) Samples.refusing
    (Samples.open_with Samples.valid_form) Samples.valid_data
  = (Samples.open_with Samples.valid_form,
     [Dialog.Update "species" Samples.valid_data 17;
      Dialog.ShowToast
        {| Dialog.title := "Something went wrong.";
           Dialog.message := "permission denied";
           Dialog.variant := Dialog.Destructive |}]).
Proof.
  apply (C9_backend_error_aborts "user-1" (Samples.species_by (Some "user-1"))
           Samples.refusing (Samples.open_with Samples.valid_form) Samples.valid_data
           {| Dialog.error_message := "permission denied" |}).
  - reflexivity.
  - reflexivity.
Defined.

(* ===================================================================== *)
(** ** What is rendered *)
(* ===================================================================== *)

Lemma view_early (species : Dialog.Species.t) (st : Dialog.State) :
  Dialog.Species.id species <= 16 ->
  Dialog.EditSpeciesDialog species st = [Dialog.Text " "; Dialog.Text " "].
Proof.
  intros H. unfold Dialog.EditSpeciesDialog.
  destruct (Z.ltb_spec 16 (Dialog.Species.id species)); [lia|reflexivity].
Qed.

Lemma dispatch_early (userId : string) (species : Dialog.Species.t)
    (backend : Dialog.Backend) (st : Dialog.State) (a : Dialog.Action) :
  Dialog.Species.id species <= 16 ->
  Dialog.dispatch userId species backend st a = (st, []).
Proof.
  intros H. unfold Dialog.dispatch. rewrite (view_early species st H).
  destruct a; reflexivity.
Qed.

Lemma run_early (userId : string) (species : Dialog.Species.t)
    (backend : Dialog.Backend) (actions : list Dialog.Action) (st : Dialog.State) :
  Dialog.Species.id species <= 16 ->
  Dialog.run userId species backend st actions = (st, []).
Proof.
  intros H. induction actions as [|a rest IH]; [reflexivity|].
  cbn [Dialog.run]. rewrite (dispatch_early userId species backend st a H), IH.
  reflexivity.
Qed.

(** C10.  The dialog, with its trigger, is among the rendered nodes exactly
    when the record's id is above 16.  For an id of 16 or less only the two
    blank text nodes are rendered, and no sequence of user actions changes the
    state or sends anything, whoever the user is. *)
Theorem C10_dialog_only_above_sixteen
    (species : Dialog.Species.t) (st : Dialog.State) :
  existsb Dialog.is_dialog (Dialog.EditSpeciesDialog species st)
  = (16 <? Dialog.Species.id species)
  /\ (16 < Dialog.Species.id species ->
      Dialog.EditSpeciesDialog species st
      = [Dialog.Text " ";
         Dialog.DialogNode (Dialog.open st) "Edit Species"
           (if Dialog.open st then Some (Dialog.values st) else None);
         Dialog.Text " "])
  /\ (Dialog.Species.id species <= 16 ->
      Dialog.EditSpeciesDialog species st = [Dialog.Text " "; Dialog.Text " "]
      /\ forall userId backend actions,
           Dialog.run userId species backend st actions = (st, [])).
Proof.
  repeat split.
  - unfold Dialog.EditSpeciesDialog.
    destruct (16 <? Dialog.Species.id species); reflexivity.
  - intros H. unfold Dialog.EditSpeciesDialog.
    destruct (Z.ltb_spec 16 (Dialog.Species.id species)); [reflexivity|lia].
  - now apply view_early.
  - intros userId backend actions. now apply run_early.
Qed.

Lemma C10_dialog_only_above_sixteen_witness :
  Dialog.Species.id Samples.early_species <= 16
  /\ Dialog.run "user-1" Samples.early_species Samples.accepting
       (Samples.open_with Samples.valid_form)
       [Dialog.ClickTrigger; Dialog.Change Samples.valid_form; Dialog.Submit]
     = (Samples.open_with Samples.valid_form, []).
Proof.
  assert (H : Dialog.Species.id Samples.early_species <= 16) by (simpl; lia).
  split; [exact H|].
  apply (C10_dialog_only_above_sixteen Samples.early_species
           (Samples.open_with Samples.valid_form)).
  exact H.
Defined.


(* ===================================================================== *)
(** ** The schema as a whole *)
(* ===================================================================== *)

Lemma speciesSchema_success_inv (input data : Dialog.FormData) :
  Dialog.speciesSchema input = Dialog.Success data ->
  Dialog.parse_scientific_name (Dialog.scientific_name input)
  = Some (Dialog.scientific_name data)
  /\ Dialog.common_name data = Dialog.blank_to_null (Dialog.common_name input)
  /\ Dialog.kingdom data = Dialog.kingdom input
  /\ Dialog.parse_total_population (Dialog.total_population input)
     = Some (Dialog.total_population data)
  /\ Dialog.parse_image (Dialog.image input) = Some (Dialog.image data)
  /\ Dialog.description data = Dialog.blank_to_null (Dialog.description input).
Proof.
  unfold Dialog.speciesSchema, Dialog.parse_optional_text.
  destruct (Dialog.parse_scientific_name _) as [sn|];
    destruct (Dialog.parse_total_population _) as [tp|];
    destruct (Dialog.parse_image _) as [im|]; try discriminate.
  intros H. injection H as <-. repeat split.
Qed.

Lemma speciesSchema_success_intro (input : Dialog.FormData)
    (sn : string) (tp : option JS.number) (im : option string) :
  Dialog.parse_scientific_name (Dialog.scientific_name input) = Some sn ->
  Dialog.parse_total_population (Dialog.total_population input) = Some tp ->
  Dialog.parse_image (Dialog.image input) = Some im ->
  Dialog.speciesSchema input
  = Dialog.Success
      {| Dialog.scientific_name := sn;
         Dialog.common_name := Dialog.blank_to_null (Dialog.common_name input);
         Dialog.kingdom := Dialog.kingdom input;
         Dialog.total_population := tp;
         Dialog.image := im;
         Dialog.description := Dialog.blank_to_null (Dialog.description input) |}.
Proof.
  intros Hsn Htp Him.
  unfold Dialog.speciesSchema, Dialog.parse_optional_text.
  now rewrite Hsn, Htp, Him.
Qed.

Lemma parse_total_population_some (n : JS.number) :
  Dialog.parse_total_population (Some n) = Some (Some n)
  <-> exists q z, n = JS.Num q /\ (q == inject_Z z)%Q /\ 1 <= z.
Proof.
  split.
  - intros H. destruct n as [|b|q]; try discriminate.
    apply parse_total_population_num in H as [z Hz]. eauto.
  - intros (q & z & -> & Hz). apply parse_total_population_num. eauto.
Qed.

Lemma parse_total_population_inv (v r : option JS.number) :
  Dialog.parse_total_population v = Some r -> r = v /\ Read.null_or_positive v.
Proof.
  destruct v as [n|].
  - destruct (parse_total_population_cases n) as [P|P]; rewrite P; [|discriminate].
    intros H. injection H as <-. split; [reflexivity|].
    now apply parse_total_population_some.
  - intros H. injection H as <-. split; [reflexivity|exact I].
Qed.

Lemma parse_image_inv (v r : option string) :
  Dialog.parse_image v = Some r ->
  r = Dialog.blank_to_null v
  /\ (forall s, v = Some s -> Url.canParse s = true).
Proof.
  destruct v as [s|]; simpl.
  - destruct (Url.canParse s) eqn:U; [|discriminate].
    intros H. injection H as <-. split; [reflexivity|].
    intros t E. injection E as <-. exact U.
  - intros H. injection H as <-. split; [reflexivity|]. discriminate.
Qed.

Lemma trim_not_blank (s : string) :
  JS.all_whitespace s = false -> JS.all_whitespace (JS.trim s) = false.
Proof.
  intros W. destruct (JS.all_whitespace (JS.trim s)) eqn:T; [|reflexivity].
  apply trim_empty_iff in T. rewrite trim_idem in T.
  apply trim_empty_iff in T. congruence.
Qed.

Lemma blank_to_null_trimmed (v : option string) :
  Read.null_or_trimmed (Dialog.blank_to_null v).
Proof.
  rewrite blank_to_null_spec. destruct v as [s|]; [|exact I].
  destruct (JS.all_whitespace s) eqn:W; [exact I|].
  split; [apply trim_idem | now apply trim_not_blank].
Qed.

Lemma blank_to_null_fixed (v : option string) :
  Read.null_or_trimmed v -> Dialog.blank_to_null v = v.
Proof.
  rewrite blank_to_null_spec. destruct v as [t|]; [|reflexivity].
  intros [T W]. now rewrite W, T.
Qed.

(** X1.  The schema accepts a form only if its scientific name is not
    blank, its population is null or an integer that is at least 1, and its
    image, if there is one, gets through the URL parser's checks of scheme
    and authority.  For a form whose image is null the first two conditions
    are also sufficient: common name, kingdom and description never stand in
    the way. *)
Theorem schema_acceptance_conditions (input : Dialog.FormData) :
  ((exists data, Dialog.speciesSchema input = Dialog.Success data) ->
   JS.all_whitespace (Dialog.scientific_name input) = false
   /\ Read.null_or_positive (Dialog.total_population input)
   /\ (forall s, Dialog.image input = Some s -> Url.canParse s = true))
  /\ (Dialog.image input = None ->
      ((exists data, Dialog.speciesSchema input = Dialog.Success data)
       <-> JS.all_whitespace (Dialog.scientific_name input) = false
           /\ Read.null_or_positive (Dialog.total_population input))).
Proof.
  assert (N : (exists data, Dialog.speciesSchema input = Dialog.Success data) ->
              JS.all_whitespace (Dialog.scientific_name input) = false
              /\ Read.null_or_positive (Dialog.total_population input)
              /\ (forall s, Dialog.image input = Some s -> Url.canParse s = true)).
  { intros [data H].
    apply speciesSchema_success_inv in H as (Hsn & _ & _ & Htp & Him & _).
    split; [|split].
    - rewrite parse_scientific_name_spec in Hsn.
      destruct (JS.all_whitespace _); [discriminate|reflexivity].
    - now apply parse_total_population_inv in Htp.
    - now apply parse_image_inv in Him. }
  split; [exact N|].
  intros Hnull. split.
  - intros A. destruct (N A) as (Hsn & Htp & _). auto.
  - intros (Hsn & Htp).
    eexists.
    apply (speciesSchema_success_intro input
             (JS.trim (Dialog.scientific_name input))
             (Dialog.total_population input) None).
    + rewrite parse_scientific_name_spec, Hsn. reflexivity.
    + destruct (Dialog.total_population input) as [n|]; [|reflexivity].
      now apply parse_total_population_some.
    + rewrite Hnull. reflexivity.
Qed.

Lemma success_is_normalised (input data : Dialog.FormData) :
  Dialog.speciesSchema input = Dialog.Success data -> Read.normalised data.
Proof.
  intros H.
  apply speciesSchema_success_inv in H as (Hsn & Hcn & Hk & Htp & Him & Hde).
  rewrite parse_scientific_name_spec in Hsn.
  destruct (JS.all_whitespace (Dialog.scientific_name input)) eqn:W; [discriminate|].
  injection Hsn as Hsn.
  apply parse_total_population_inv in Htp as [Etp Ptp].
  apply parse_image_inv in Him as [Eim _].
  repeat split.
  - rewrite <- Hsn. apply trim_idem.
  - rewrite <- Hsn. now apply trim_not_blank.
  - rewrite Hcn. apply blank_to_null_trimmed.
  - now rewrite Etp.
  - rewrite Eim. apply blank_to_null_trimmed.
  - rewrite Hde. apply blank_to_null_trimmed.
Qed.

(** X2.  What the schema hands on is normalised: the scientific name is the
    trimmed input and is not blank; common name, image and description are
    null or trimmed and not blank; the population is null or an integer that
    is at least 1; kingdom and population are passed on as they are. *)
Theorem schema_output_is_normalised (input data : Dialog.FormData)
    (Hvalid : Dialog.speciesSchema input = Dialog.Success data) :
  Read.normalised data
  /\ Dialog.scientific_name data = JS.trim (Dialog.scientific_name input)
  /\ Dialog.kingdom data = Dialog.kingdom input
  /\ Dialog.total_population data = Dialog.total_population input.
Proof.
  split; [now apply (success_is_normalised input)|].
  apply speciesSchema_success_inv in Hvalid as (Hsn & _ & Hk & Htp & _).
  rewrite parse_scientific_name_spec in Hsn.
  destruct (JS.all_whitespace (Dialog.scientific_name input)); [discriminate|].
  injection Hsn as Hsn.
  apply parse_total_population_inv in Htp as [Etp _].
  auto.
Qed.

Lemma schema_output_is_normalised_witness :
  Read.normalised Samples.valid_data.
Proof.
  apply (schema_output_is_normalised Samples.valid_form Samples.valid_data).
  reflexivity.
Defined.

(** X3.  Validated data passes the schema again unchanged, as long as its
    image still passes the URL check: trimming and blank-to-null are
    idempotent. *)
Theorem schema_output_is_a_fixed_point (input data : Dialog.FormData)
    (Hvalid : Dialog.speciesSchema input = Dialog.Success data)
    (Himage : forall s, Dialog.image data = Some s -> Url.canParse s = true) :
  Dialog.speciesSchema data = Dialog.Success data.
Proof.
  apply speciesSchema_success_inv in Hvalid as (Hsn & Hcn & Hk & Htp & Him & Hde).
  rewrite parse_scientific_name_spec in Hsn.
  destruct (JS.all_whitespace (Dialog.scientific_name input)) eqn:W; [discriminate|].
  injection Hsn as Hsn.
  apply parse_total_population_inv in Htp as [Etp Ptp].
  apply parse_image_inv in Him as [Eim _].
  rewrite (speciesSchema_success_intro data (Dialog.scientific_name data)
             (Dialog.total_population data) (Dialog.image data)).
  - rewrite !blank_to_null_fixed; [now destruct data| |].
    + rewrite Hde. apply blank_to_null_trimmed.
    + rewrite Hcn. apply blank_to_null_trimmed.
  - rewrite parse_scientific_name_spec, <- Hsn, trim_not_blank, trim_idem by exact W.
    reflexivity.
  - rewrite Etp. destruct (Dialog.total_population input) as [n|]; [|reflexivity].
    now apply parse_total_population_some.
  - destruct (Dialog.image data) as [t|] eqn:E; [|reflexivity].
    rewrite parse_image_url by now apply Himage.
    assert (T : Read.null_or_trimmed (Some t))
      by (rewrite Eim; apply blank_to_null_trimmed).
    destruct T as [T _]. now rewrite T.
Qed.

Lemma schema_output_is_a_fixed_point_witness :
  Dialog.speciesSchema Samples.valid_data = Dialog.Success Samples.valid_data.
Proof.
  apply (schema_output_is_a_fixed_point Samples.valid_form Samples.valid_data).
  - reflexivity.
  - intros s E. injection E as <-. reflexivity.
Defined.

(** X4.  A validation failure names at least one field.  The scientific
    name is named exactly when it is blank, the population exactly when its
    own check fails, and the image whenever it does not get through the URL
    parser's checks of scheme and authority; common name, kingdom and
    description are never named. *)
Theorem schema_failure_names_failed_fields (input : Dialog.FormData)
    (issues : list Dialog.Field)
    (Hfail : Dialog.speciesSchema input = Dialog.Failure issues) :
  issues <> []
  /\ (In Dialog.F_scientific_name issues
      <-> JS.all_whitespace (Dialog.scientific_name input) = true)
  /\ (In Dialog.F_total_population issues
      <-> Dialog.parse_total_population (Dialog.total_population input) = None)
  /\ (Dialog.parse_image (Dialog.image input) = None -> In Dialog.F_image issues)
  /\ ~ In Dialog.F_common_name issues
  /\ ~ In Dialog.F_kingdom issues
  /\ ~ In Dialog.F_description issues.
Proof.
  revert Hfail.
  unfold Dialog.speciesSchema, Dialog.parse_optional_text.
  rewrite parse_scientific_name_spec.
  destruct (JS.all_whitespace (Dialog.scientific_name input));
    destruct (Dialog.parse_total_population _) as [tp|];
    destruct (Dialog.parse_image _) as [im|];
    cbn [Dialog.issue app]; intros H; try discriminate; injection H as <-.
  all: repeat split; try discriminate;
    try (simpl; intuition discriminate).
Qed.

Lemma schema_failure_names_failed_fields_witness :
  Dialog.speciesSchema (Samples.form_with "Cavia porcellus" None (Some ""))
  = Dialog.Failure [Dialog.F_image]
  /\ In Dialog.F_image [Dialog.F_image].
Proof.
  split; [reflexivity|].
  destruct (schema_failure_names_failed_fields
              (Samples.form_with "Cavia porcellus" None (Some "")) [Dialog.F_image])
    as (_ & _ & _ & H & _).
  - reflexivity.
  - apply H. reflexivity.
Defined.

(* ===================================================================== *)
(** ** Images without a scheme *)
(* ===================================================================== *)

Lemma mentions_strip_start (p : ascii -> bool) (c : ascii) (s : string) :
  Read.mentions c s = false -> Read.mentions c (JS.strip_start p s) = false.
Proof.
  induction s as [|d s IH]; simpl; [tauto|].
  intros H. destruct (p d); [|exact H].
  apply orb_false_iff in H as [_ H]. auto.
Qed.

Lemma mentions_strip_end (p : ascii -> bool) (c : ascii) (s : string) :
  Read.mentions c s = false -> Read.mentions c (JS.strip_end p s) = false.
Proof.
  induction s as [|d s IH]; simpl; [tauto|].
  intros H. apply orb_false_iff in H as [Hd H]. specialize (IH H).
  destruct (JS.strip_end p s) as [|e t].
  - destruct (p d); simpl; [reflexivity|]. now rewrite Hd.
  - simpl in *. now rewrite Hd, IH.
Qed.

Lemma mentions_remove_tab_newline (c : ascii) (s : string) :
  Read.mentions c s = false -> Read.mentions c (Url.remove_tab_newline s) = false.
Proof.
  induction s as [|d s IH]; simpl; [tauto|].
  intros H. apply orb_false_iff in H as [Hd H].
  destruct (Url.is_tab_or_newline d); simpl; auto.
  now rewrite Hd, IH.
Qed.

Lemma scheme_state_needs_colon (s buffer : string) :
  Read.mentions ":" s = false -> Url.scheme_state s buffer = None.
Proof.
  revert buffer. induction s as [|d s IH]; intros buffer; simpl; [reflexivity|].
  intros H. apply orb_false_iff in H as [Hd H]. rewrite Hd.
  destruct (Url.is_scheme_char d); auto.
Qed.

Lemma canParse_needs_colon (s : string) :
  Read.mentions ":" s = false -> Url.canParse s = false.
Proof.
  intros H. unfold Url.canParse.
  pose proof (mentions_remove_tab_newline _ _
                (mentions_strip_end Url.is_c0_or_space _ _
                   (mentions_strip_start Url.is_c0_or_space _ _ H))) as M.
  destruct (Url.remove_tab_newline _) as [|d t]; [reflexivity|].
  simpl in M. apply orb_false_iff in M as [_ M].
  unfold Url.scheme_start.
  destruct (Url.is_alpha d); [|reflexivity].
  now rewrite scheme_state_needs_colon.
Qed.

(** X5.  An image value without a colon has no scheme: it fails validation
    on the image field, so a bare host name, a relative path or a file name
    is never submitted. *)
Theorem image_without_colon_is_rejected (input : Dialog.FormData) (s : string)
    (Himage : Dialog.image input = Some s)
    (Hcolon : Read.mentions ":" s = false) :
  Dialog.parse_image (Some s) = None
  /\ exists issues, Dialog.speciesSchema input = Dialog.Failure issues
                    /\ In Dialog.F_image issues.
Proof.
  assert (P : Dialog.parse_image (Some s) = None)
    by (unfold Dialog.parse_image; now rewrite canParse_needs_colon).
  split; [exact P|].
  apply image_issue. now rewrite Himage.
Qed.

Lemma image_without_colon_is_rejected_witness :
  Dialog.parse_image (Some "example.org/cavy.jpg") = None.
Proof.
  apply (image_without_colon_is_rejected
           (Samples.form_with "Cavia porcellus" None (Some "example.org/cavy.jpg"))
           "example.org/cavy.jpg").
  - reflexivity.
  - reflexivity.
Defined.

(* ===================================================================== *)
(** ** Submissions, one and many *)
(* ===================================================================== *)

Lemma not_author_false (species : Dialog.Species.t) (userId : string) :
  Dialog.not_author species userId = false <->
  Dialog.Species.author species = None
  \/ Dialog.Species.author species = Some EmptyString
  \/ Dialog.Species.author species = Some userId.
Proof.
  unfold Dialog.not_author.
  destruct (Dialog.Species.author species) as [a|]; [|simpl; split; auto].
  unfold JS.truthy, JS.truthy_string.
  destruct a as [|c a]; [simpl; split; auto|].
  cbn [JS.is_empty negb andb].
  destruct (String.eqb_spec (String c a) userId) as [E|E]; cbn [negb].
  - rewrite E. split; [intros _; right; right; reflexivity | reflexivity].
  - split; [discriminate|]. intros [H|[H|H]]; congruence.
Qed.

(** The four ways a submission can end. *)
Lemma handleSubmit_outcomes (userId : string) (species : Dialog.Species.t)
    (backend : Dialog.Backend) (st : Dialog.State) :
  let cleared := {| Dialog.open := Dialog.open st; Dialog.values := Dialog.values st;
                    Dialog.errors := [] |} in
  (exists issues,
     Dialog.speciesSchema (Dialog.values st) = Dialog.Failure issues
     /\ Dialog.handleSubmit userId species backend st
        = ({| Dialog.open := Dialog.open st; Dialog.values := Dialog.values st;
              Dialog.errors := issues |}, []))
  \/ (exists data t,
        Dialog.speciesSchema (Dialog.values st) = Dialog.Success data
        /\ Dialog.not_author species userId = true
        /\ Dialog.handleSubmit userId species backend st
           = (cleared, [Dialog.ShowToast t]))
  \/ (exists data t,
        Dialog.speciesSchema (Dialog.values st) = Dialog.Success data
        /\ Dialog.not_author species userId = false
        /\ backend "species" data (Dialog.Species.id species) <> None
        /\ Dialog.handleSubmit userId species backend st
           = (cleared, [Dialog.Update "species" data (Dialog.Species.id species);
                        Dialog.ShowToast t]))
  \/ (exists data t,
        Dialog.speciesSchema (Dialog.values st) = Dialog.Success data
        /\ Dialog.not_author species userId = false
        /\ backend "species" data (Dialog.Species.id species) = None
        /\ Dialog.handleSubmit userId species backend st
           = ({| Dialog.open := false; Dialog.values := Dialog.defaultValues;
                 Dialog.errors := [] |},
              [Dialog.Update "species" data (Dialog.Species.id species);
               Dialog.RouterRefresh;
               Dialog.ShowToast t])).
Proof.
  intros cleared. unfold Dialog.handleSubmit, Dialog.onSubmit.
  destruct (Dialog.speciesSchema (Dialog.values st)) as [data|issues]; [|left; eauto].
  right.
  destruct (Dialog.not_author species userId); [left; eauto|].
  right.
  destruct (backend "species" data (Dialog.Species.id species)) as [error|] eqn:B.
  - left. exists data. eexists.
    split; [reflexivity|]. split; [reflexivity|].
    split; [rewrite B; discriminate|reflexivity].
  - right. exists data. eexists.
    split; [reflexivity|]. split; [reflexivity|]. split; [exact B|reflexivity].
Qed.

(** X6.  A submission sends at most one update.  When it sends one, the form
    passed validation, the author guard passed, and the update is for the
    table "species", the row of the record's own id, with the validated
    data; the update is sent before anything is shown or refreshed. *)
Theorem submission_sends_at_most_one_update
    (userId : string) (species : Dialog.Species.t) (backend : Dialog.Backend)
    (st : Dialog.State) :
  List.filter Dialog.is_update (snd (Dialog.handleSubmit userId species backend st)) = []
  \/ exists data rest,
       Dialog.speciesSchema (Dialog.values st) = Dialog.Success data
       /\ Dialog.not_author species userId = false
       /\ snd (Dialog.handleSubmit userId species backend st)
          = Dialog.Update "species" data (Dialog.Species.id species) :: rest
       /\ List.filter Dialog.is_update rest = [].
Proof.
  destruct (handleSubmit_outcomes userId species backend st)
    as [(issues & _ & ->) | [(data & t & _ & _ & ->)
       | [(data & t & V & A & _ & ->) | (data & t & V & A & _ & ->)]]].
  - left. reflexivity.
  - left. reflexivity.
  - right. do 2 eexists. repeat split; eauto.
  - right. do 2 eexists. repeat split; eauto.
Qed.

(** X7.  A submission shows one notification when the form passes
    validation, whatever happens next, and none when validation fails: then
    the issues are only recorded on the fields.  The state is left as it was,
    dialog open and values kept, unless the route is refreshed, which happens
    only on success. *)
Theorem submission_notifies_and_keeps_state
    (userId : string) (species : Dialog.Species.t) (backend : Dialog.Backend)
    (st : Dialog.State) :
  let after := Dialog.handleSubmit userId species backend st in
  length (List.filter Read.is_toast (snd after))
  = match Dialog.speciesSchema (Dialog.values st) with
    | Dialog.Success _ => 1%nat
    | Dialog.Failure _ => 0%nat
    end
  /\ (existsb Dialog.is_refresh (snd after) = false ->
      Dialog.open (fst after) = Dialog.open st
      /\ Dialog.values (fst after) = Dialog.values st)
  /\ (existsb Dialog.is_refresh (snd after) = true ->
      fst after = {| Dialog.open := false; Dialog.values := Dialog.defaultValues;
                     Dialog.errors := [] |}
      /\ existsb Dialog.is_update (snd after) = true).
Proof.
  cbv zeta.
  destruct (handleSubmit_outcomes userId species backend st)
    as [(issues & V & ->) | [(data & t & V & _ & ->)
       | [(data & t & V & _ & _ & ->) | (data & t & V & _ & _ & ->)]]];
    rewrite V; simpl; repeat split; try discriminate.
Qed.

Lemma view_has_form (species : Dialog.Species.t) (st : Dialog.State) :
  existsb Dialog.has_form (Dialog.EditSpeciesDialog species st)
  = (16 <? Dialog.Species.id species) && Dialog.open st.
Proof.
  unfold Dialog.EditSpeciesDialog.
  destruct (16 <? Dialog.Species.id species); [|reflexivity].
  destruct (Dialog.open st); reflexivity.
Qed.

Lemma view_has_dialog (species : Dialog.Species.t) (st : Dialog.State) :
  existsb Dialog.is_dialog (Dialog.EditSpeciesDialog species st)
  = (16 <? Dialog.Species.id species).
Proof.
  unfold Dialog.EditSpeciesDialog.
  destruct (16 <? Dialog.Species.id species); reflexivity.
Qed.

(** What each action does, by what is on screen. *)
Lemma dispatch_spec (userId : string) (species : Dialog.Species.t)
    (backend : Dialog.Backend) (st : Dialog.State) (a : Dialog.Action) :
  Dialog.dispatch userId species backend st a =
  let shown := 16 <? Dialog.Species.id species in
  match a with
  | Dialog.ClickTrigger =>
      if shown && negb (Dialog.open st)
      then ({| Dialog.open := true; Dialog.values := Dialog.prefill species;
               Dialog.errors := [] |}, [])
      else (st, [])
  | Dialog.ClickCancel =>
      if shown && Dialog.open st
      then ({| Dialog.open := false; Dialog.values := Dialog.values st;
               Dialog.errors := Dialog.errors st |}, [])
      else (st, [])
  | Dialog.Change v =>
      if shown && Dialog.open st
      then ({| Dialog.open := Dialog.open st; Dialog.values := v;
               Dialog.errors := Dialog.errors st |}, [])
      else (st, [])
  | Dialog.Submit =>
      if shown && Dialog.open st
      then Dialog.handleSubmit userId species backend st
      else (st, [])
  end.
Proof.
  unfold Dialog.dispatch. rewrite view_has_form, view_has_dialog.
  destruct a; reflexivity.
Qed.

Lemma run_cons (userId : string) (species : Dialog.Species.t)
    (backend : Dialog.Backend) (st : Dialog.State) (a : Dialog.Action)
    (rest : list Dialog.Action) :
  Dialog.run userId species backend st (a :: rest) =
  (fst (Dialog.run userId species backend
          (fst (Dialog.dispatch userId species backend st a)) rest),
   (snd (Dialog.dispatch userId species backend st a)
    ++ snd (Dialog.run userId species backend
              (fst (Dialog.dispatch userId species backend st a)) rest))%list).
Proof.
  cbn [Dialog.run].
  destruct (Dialog.dispatch userId species backend st a) as [st' effects].
  cbn [fst snd].
  destruct (Dialog.run userId species backend st' rest) as [st'' effects'].
  reflexivity.
Qed.

Lemma dispatch_update_inv (userId : string) (species : Dialog.Species.t)
    (backend : Dialog.Backend) (st : Dialog.State) (a : Dialog.Action)
    (e : Dialog.Effect) :
  In e (snd (Dialog.dispatch userId species backend st a)) ->
  Dialog.is_update e = true ->
  a = Dialog.Submit
  /\ 16 < Dialog.Species.id species
  /\ Dialog.not_author species userId = false
  /\ exists data,
       Dialog.speciesSchema (Dialog.values st) = Dialog.Success data
       /\ e = Dialog.Update "species" data (Dialog.Species.id species).
Proof.
  rewrite dispatch_spec. cbv zeta.
  destruct (Z.ltb_spec 16 (Dialog.Species.id species)) as [L|L];
    destruct a; cbn [andb];
    repeat match goal with
           | |- context [if ?b then _ else _] => destruct b
           end; cbn [snd]; try (intros []).
  destruct (handleSubmit_outcomes userId species backend st)
    as [(issues & _ & ->) | [(data & t & _ & _ & ->)
       | [(data & t & V & A & _ & ->) | (data & t & V & A & _ & ->)]]];
    cbn [snd In]; intros H U.
  - destruct H.
  - destruct H as [<-|[]]. discriminate.
  - destruct H as [<-|[<-|[]]]; [|discriminate]. eauto 10.
  - destruct H as [<-|[<-|[<-|[]]]]; try discriminate. eauto 10.
Qed.

Lemma run_update_inv (userId : string) (species : Dialog.Species.t)
    (backend : Dialog.Backend) (actions : list Dialog.Action) (st : Dialog.State)
    (e : Dialog.Effect) :
  In e (snd (Dialog.run userId species backend st actions)) ->
  Dialog.is_update e = true ->
  16 < Dialog.Species.id species
  /\ Dialog.not_author species userId = false
  /\ exists raw data,
       Dialog.speciesSchema raw = Dialog.Success data
       /\ e = Dialog.Update "species" data (Dialog.Species.id species).
Proof.
  revert st. induction actions as [|a rest IH]; intros st; [intros []|].
  rewrite run_cons. cbn [snd]. intros H U.
  apply in_app_or in H as [H|H].
  - destruct (dispatch_update_inv _ _ _ _ _ _ H U) as (_ & L & A & data & V & E).
    eauto 10.
  - eapply IH; eauto.
Qed.

(** X8.  Whatever the user does, in whatever order and from whatever state,
    every update the component sends is for the table "species" and the
    record's own id, carries normalised data (no blank text, no population
    below 1), and is sent for a record above the first sixteen whose author is
    missing, empty or the acting user. *)
Theorem every_update_is_validated
    (userId : string) (species : Dialog.Species.t) (backend : Dialog.Backend)
    (st : Dialog.State) (actions : list Dialog.Action) (e : Dialog.Effect)
    (Hsent : In e (snd (Dialog.run userId species backend st actions)))
    (Hupdate : Dialog.is_update e = true) :
  exists data,
    e = Dialog.Update "species" data (Dialog.Species.id species)
    /\ Read.normalised data
    /\ 16 < Dialog.Species.id species
    /\ (Dialog.Species.author species = None
        \/ Dialog.Species.author species = Some EmptyString
        \/ Dialog.Species.author species = Some userId).
Proof.
  destruct (run_update_inv _ _ _ _ _ _ Hsent Hupdate)
    as (L & A & raw & data & V & E).
  exists data. split; [exact E|]. split.
  - now apply (success_is_normalised raw).
  - split; [exact L|]. now apply not_author_false.
Qed.

Lemma every_update_is_validated_witness :
  exists data,
    Dialog.Update "species" Samples.valid_data 17
    = Dialog.Update "species" data
        (Dialog.Species.id (Samples.species_by (Some "user-1")))
    /\ Read.normalised data
    /\ 16 < Dialog.Species.id (Samples.species_by (Some "user-1"))
    /\ (Dialog.Species.author (Samples.species_by (Some "user-1")) = None
        \/ Dialog.Species.author (Samples.species_by (Some "user-1")) = Some EmptyString
        \/ Dialog.Species.author (Samples.species_by (Some "user-1")) = Some "user-1").
Proof.
  apply (every_update_is_validated "user-1" (Samples.species_by (Some "user-1"))
           Samples.accepting (Samples.open_with Dialog.defaultValues)
           [Dialog.Change Samples.valid_form; Dialog.Submit]).
  - left. reflexivity.
  - reflexivity.
Defined.

(** X9.  A user who is not the author of an authored record sends no update
    through the dialog, whatever they do and however often they try. *)
Theorem other_user_never_updates
    (userId : string) (species : Dialog.Species.t) (backend : Dialog.Backend)
    (st : Dialog.State) (actions : list Dialog.Action) (a : string)
    (Hauthor : Dialog.Species.author species = Some a)
    (Hpresent : a <> EmptyString)
    (Hother : a <> userId) :
  List.filter Dialog.is_update (snd (Dialog.run userId species backend st actions)) = [].
Proof.
  assert (G : Dialog.not_author species userId = true)
    by (apply not_author_true; eauto).
  destruct (List.filter Dialog.is_update _) as [|e l] eqn:F; [reflexivity|].
  assert (Hin : In e (List.filter Dialog.is_update
                        (snd (Dialog.run userId species backend st actions))))
    by (rewrite F; left; reflexivity).
  apply filter_In in Hin as [Hin U].
  destruct (run_update_inv _ _ _ _ _ _ Hin U) as (_ & A & _). congruence.
Qed.

Lemma other_user_never_updates_witness :
  List.filter Dialog.is_update
    (snd (Dialog.run "user-2" (Samples.species_by (Some "user-1")) Samples.accepting
            (Samples.open_with Samples.valid_form)
            [Dialog.Submit; Dialog.ClickCancel; Dialog.ClickTrigger; Dialog.Submit])) = [].
Proof.
  apply (other_user_never_updates "user-2" (Samples.species_by (Some "user-1"))
           Samples.accepting (Samples.open_with Samples.valid_form)
           [Dialog.Submit; Dialog.ClickCancel; Dialog.ClickTrigger; Dialog.Submit]
           "user-1").
  - reflexivity.
  - discriminate.
  - discriminate.
Defined.

Lemma dispatch_update_count (userId : string) (species : Dialog.Species.t)
    (backend : Dialog.Backend) (st : Dialog.State) (a : Dialog.Action) :
  (length (List.filter Dialog.is_update
             (snd (Dialog.dispatch userId species backend st a)))
   <= if Read.is_submit a then 1 else 0)%nat.
Proof.
  rewrite dispatch_spec. cbv zeta.
  destruct a; cbn [Read.is_submit];
    match goal with |- context [if ?b then _ else _] => destruct b end;
    cbn [snd List.filter length]; try lia.
  destruct (handleSubmit_outcomes userId species backend st)
    as [(issues & _ & ->) | [(data & t & _ & _ & ->)
       | [(data & t & _ & _ & _ & ->) | (data & t & _ & _ & _ & ->)]]];
    cbn [snd List.filter Dialog.is_update length]; lia.
Qed.

(** X10.  The component never repeats a request on its own: over any
    sequence of actions it sends at most as many updates as the form was
    submitted. *)
Theorem no_more_updates_than_submissions
    (userId : string) (species : Dialog.Species.t) (backend : Dialog.Backend)
    (st : Dialog.State) (actions : list Dialog.Action) :
  (length (List.filter Dialog.is_update
             (snd (Dialog.run userId species backend st actions)))
   <= length (List.filter Read.is_submit actions))%nat.
Proof.
  revert st. induction actions as [|a rest IH]; intros st; [simpl; lia|].
  rewrite run_cons. cbn [snd].
  rewrite List.filter_app, List.length_app.
  pose proof (dispatch_update_count userId species backend st a) as D.
  specialize (IH (fst (Dialog.dispatch userId species backend st a))).
  cbn [List.filter]. destruct (Read.is_submit a); cbn [length]; lia.
Qed.

Lemma run_changes (userId : string) (species : Dialog.Species.t)
    (backend : Dialog.Backend) (edits : list Dialog.FormData)
    (rest : list Dialog.Action) (st : Dialog.State) :
  16 < Dialog.Species.id species ->
  Dialog.open st = true ->
  exists v,
    Dialog.run userId species backend st (List.map Dialog.Change edits ++ rest)
    = Dialog.run userId species backend
        {| Dialog.open := true; Dialog.values := v; Dialog.errors := Dialog.errors st |}
        rest.
Proof.
  intros L. apply Z.ltb_lt in L.
  revert st. induction edits as [|v edits IH]; intros st O.
  - exists (Dialog.values st). destruct st as [o v e]. simpl in O. now subst.
  - cbn [List.map app]. rewrite run_cons, dispatch_spec. cbv zeta.
    rewrite L, O. cbn [andb fst snd app].
    destruct (IH {| Dialog.open := true; Dialog.values := v;
                    Dialog.errors := Dialog.errors st |} eq_refl) as [w E].
    exists w. rewrite E. cbn [Dialog.errors].
    now destruct (Dialog.run _ _ _ _ rest).
Qed.

(** X11.  Edits that are cancelled are gone: after any number of changes,
    closing the dialog with Cancel and opening it again shows the record's
    own values, with no field error, and nothing was sent. *)
Theorem cancel_then_reopen_restores_the_record
    (userId : string) (species : Dialog.Species.t) (backend : Dialog.Backend)
    (st : Dialog.State) (edits : list Dialog.FormData)
    (Hshown : 16 < Dialog.Species.id species)
    (Hopen : Dialog.open st = true) :
  Dialog.run userId species backend st
    (List.map Dialog.Change edits ++ [Dialog.ClickCancel; Dialog.ClickTrigger])
  = ({| Dialog.open := true; Dialog.values := Dialog.prefill species;
        Dialog.errors := [] |}, []).
Proof.
  destruct (run_changes userId species backend edits
              [Dialog.ClickCancel; Dialog.ClickTrigger] st Hshown Hopen) as [v ->].
  apply Z.ltb_lt in Hshown.
  rewrite !run_cons, !dispatch_spec. cbv zeta. rewrite Hshown. reflexivity.
Qed.

Lemma cancel_then_reopen_restores_the_record_witness :
  Dialog.run "user-1" MoreSamples.pictured_species Samples.accepting
    (Samples.open_with (Dialog.prefill MoreSamples.pictured_species))
    (List.map Dialog.Change [Samples.valid_form; Dialog.defaultValues]
     ++ [Dialog.ClickCancel; Dialog.ClickTrigger])
  = ({| Dialog.open := true;
        Dialog.values := Dialog.prefill MoreSamples.pictured_species;
        Dialog.errors := [] |}, []).
Proof.
  apply (cancel_then_reopen_restores_the_record "user-1" MoreSamples.pictured_species
           Samples.accepting
           (Samples.open_with (Dialog.prefill MoreSamples.pictured_species))
           [Samples.valid_form; Dialog.defaultValues]).
  - simpl. lia.
  - reflexivity.
Defined.

Lemma run_closed (userId : string) (species : Dialog.Species.t)
    (backend : Dialog.Backend) (actions : list Dialog.Action) (st : Dialog.State) :
  Dialog.open st = false ->
  List.filter Read.is_trigger actions = [] ->
  Dialog.run userId species backend st actions = (st, []).
Proof.
  intros O. induction actions as [|a rest IH]; [reflexivity|].
  intros T. rewrite run_cons, dispatch_spec. cbv zeta. rewrite O, andb_false_r.
  destruct a; cbn [Read.is_trigger List.filter] in T; try discriminate;
    cbn [fst snd app]; rewrite (IH T); reflexivity.
Qed.

(** X12.  A successful submission closes the dialog, and a closed dialog
    takes no input: until the trigger is clicked again, further submits,
    changes and cancels send nothing and change nothing. *)
Theorem nothing_is_sent_after_success_until_reopened
    (userId : string) (species : Dialog.Species.t) (backend : Dialog.Backend)
    (st : Dialog.State) (data : Dialog.FormData) (actions : list Dialog.Action)
    (Hshown : 16 < Dialog.Species.id species)
    (Hopen : Dialog.open st = true)
    (Hvalid : Dialog.speciesSchema (Dialog.values st) = Dialog.Success data)
    (Hauthor : Dialog.not_author species userId = false)
    (Hok : backend "species" data (Dialog.Species.id species) = None)
    (Hclosed : List.filter Read.is_trigger actions = []) :
  Dialog.run userId species backend st (Dialog.Submit :: actions)
  = Dialog.handleSubmit userId species backend st
  /\ List.filter Dialog.is_update
       (snd (Dialog.run userId species backend st (Dialog.Submit :: actions)))
     = [Dialog.Update "species" data (Dialog.Species.id species)].
Proof.
  assert (E : Dialog.handleSubmit userId species backend st
              = ({| Dialog.open := false; Dialog.values := Dialog.defaultValues;
                    Dialog.errors := [] |},
                 [Dialog.Update "species" data (Dialog.Species.id species);
                  Dialog.RouterRefresh;
                  Dialog.ShowToast
                    {| Dialog.title := "Species edited!";
                       Dialog.message :=
                         String.append "Successfully edited "
                           (String.append (Dialog.scientific_name data) ".");
                       Dialog.variant := Dialog.Default |}])).
  { unfold Dialog.handleSubmit, Dialog.onSubmit. now rewrite Hvalid, Hauthor, Hok. }
  assert (R : Dialog.run userId species backend st (Dialog.Submit :: actions)
              = Dialog.handleSubmit userId species backend st).
  { apply Z.ltb_lt in Hshown.
    rewrite run_cons, dispatch_spec. cbv zeta. rewrite Hshown, Hopen. cbn [andb].
    rewrite E. cbn [fst snd]. rewrite run_closed by (auto; reflexivity).
    reflexivity. }
  split; [exact R|]. rewrite R, E. reflexivity.
Qed.

Lemma nothing_is_sent_after_success_until_reopened_witness :
  List.filter Dialog.is_update
    (snd (Dialog.run "user-1" (Samples.species_by (Some "user-1")) Samples.accepting
            (Samples.open_with Samples.valid_form)
            [Dialog.Submit; Dialog.Submit; Dialog.Change Samples.valid_form; Dialog.Submit]))
  = [Dialog.Update "species" Samples.valid_data
       (Dialog.Species.id (Samples.species_by (Some "user-1")))].
Proof.
  apply (nothing_is_sent_after_success_until_reopened "user-1"
           (Samples.species_by (Some "user-1")) Samples.accepting
           (Samples.open_with Samples.valid_form) Samples.valid_data
           [Dialog.Submit; Dialog.Change Samples.valid_form; Dialog.Submit]).
  - simpl. lia.
  - reflexivity.
  - reflexivity.
  - reflexivity.
  - reflexivity.
  - reflexivity.
Defined.

(* ===================================================================== *)
(** ** The population input *)
(* ===================================================================== *)

Lemma StringToNumber_blank (text : string) :
  JS.all_whitespace text = true -> Input.StringToNumber text = JS.Num 0.
Proof.
  intros W. apply trim_empty_iff in W.
  unfold Input.StringToNumber. now rewrite W.
Qed.

(** X13.  Emptying the population input does not bring back null: the field
    then holds the number 0, never null, so the next submission fails
    validation on the population, sends nothing and leaves the dialog as it
    is. *)
Theorem cleared_population_is_zero_and_refused
    (userId : string) (species : Dialog.Species.t) (backend : Dialog.Backend)
    (st : Dialog.State) (text : string)
    (Hblank : JS.all_whitespace text = true) :
  let st' := Input.onPopulationChange st text in
  Dialog.total_population (Dialog.values st') = Some (JS.Num 0)
  /\ exists issues,
       In Dialog.F_total_population issues
       /\ Dialog.handleSubmit userId species backend st'
          = ({| Dialog.open := Dialog.open st; Dialog.values := Dialog.values st';
                Dialog.errors := issues |}, []).
Proof.
  cbv zeta.
  assert (P : Dialog.total_population (Dialog.values (Input.onPopulationChange st text))
              = Some (JS.Num 0))
    by (cbn; now rewrite StringToNumber_blank).
  split; [exact P|].
  destruct (total_population_issue (Dialog.values (Input.onPopulationChange st text)))
    as (issues & F & Hin).
  { rewrite P. reflexivity. }
  exists issues. split; [exact Hin|].
  unfold Dialog.handleSubmit. rewrite F. reflexivity.
Qed.

Lemma cleared_population_is_zero_and_refused_witness :
  Dialog.total_population
    (Dialog.values (Input.onPopulationChange (Samples.open_with Samples.valid_form) ""))
  = Some (JS.Num 0).
Proof.
  apply (cleared_population_is_zero_and_refused "user-1"
           (Samples.species_by (Some "user-1")) Samples.accepting
           (Samples.open_with Samples.valid_form) "").
  reflexivity.
Defined.

(* ===================================================================== *)
(** ** Rows of the CSV *)
(* ===================================================================== *)

Lemma parseFloat_blank (s : string) :
  JS.all_whitespace s = true -> JS.parseFloat s = JS.NaN.
Proof.
  intros W. rewrite <- all_of_whitespace in W.
  apply strip_start_empty in W.
  unfold JS.parseFloat, JS.trimStart. now rewrite W.
Qed.

Lemma parseFloat_not_numeric (s rest : string) (c : ascii) :
  JS.trimStart s = String c rest ->
  JS.digit c = None ->
  ~ In c ["+"; "-"; "."; "I"]%char ->
  JS.parseFloat s = JS.NaN.
Proof.
  intros T D N.
  assert (Hp : Ascii.eqb c "+" = false) by (apply Ascii.eqb_neq; intros ->; apply N; simpl; auto).
  assert (Hm : Ascii.eqb c "-" = false) by (apply Ascii.eqb_neq; intros ->; apply N; simpl; auto).
  assert (Hd : Ascii.eqb c "." = false) by (apply Ascii.eqb_neq; intros ->; apply N; simpl; auto).
  assert (Hi : Ascii.eqb c "I" = false) by (apply Ascii.eqb_neq; intros ->; apply N; simpl; auto).
  unfold JS.parseFloat. rewrite T.
  assert (S : JS.sign (String c rest) = (false, String c rest)).
  { unfold JS.sign.
    destruct c as [[] [] [] [] [] [] [] []]; try reflexivity; discriminate. }
  rewrite S. unfold JS.unsigned_literal, JS.starts_with.
  assert (P : String.prefix "Infinity" (String c rest) = false).
  { cbn [String.prefix]. destruct (ascii_dec "I" c) as [E|E]; [|reflexivity].
    subst c. discriminate. }
  rewrite P. cbn [JS.digits]. rewrite D.
  destruct c as [[] [] [] [] [] [] [] []]; try reflexivity; discriminate.
Qed.

(** X14.  A row is kept exactly when its name cell, if there is one, is not
    blank and its speed text parses to a finite number.  A row without the
    column "Animal" is not dropped for that: it is named "undefined"; a row
    without the column "Diet" has the diet "undefined". *)
Theorem row_is_kept_iff (r : gmap string string) :
  (Chart.keep (Chart.to_datum r) = true
   <-> (forall s, r !! "Animal" = Some s -> JS.all_whitespace s = false)
       /\ exists q, JS.parseFloat (JS.String_ (r !! "Average Speed (km/h)")) = JS.Num q)
  /\ (r !! "Animal" = None -> Chart.name (Chart.to_datum r) = "undefined")
  /\ (r !! "Diet" = None -> Chart.diet (Chart.to_datum r) = "undefined").
Proof.
  split; [|split].
  - rewrite keep_true. cbn [Chart.to_datum Chart.name Chart.speed].
    assert (N : JS.trim (JS.String_ (r !! "Animal")) <> EmptyString
                <-> forall s, r !! "Animal" = Some s -> JS.all_whitespace s = false).
    { rewrite trim_empty_iff.
      destruct (r !! "Animal") as [s|]; cbn [JS.String_].
      - split.
        + intros H t E. injection E as <-.
          destruct (JS.all_whitespace s); [now elim H|reflexivity].
        + intros H. rewrite (H s eq_refl). discriminate.
      - split; [discriminate|]. intros _. discriminate. }
    now rewrite N.
  - intros E. cbn [Chart.to_datum Chart.name]. rewrite E. reflexivity.
  - intros E. cbn [Chart.to_datum Chart.diet]. rewrite E. reflexivity.
Qed.

(** X15.  A row whose speed cell is missing, blank, or starts (after white
    space) with something that cannot begin a number is dropped, whatever its
    name. *)
Theorem row_without_a_speed_is_dropped
    (r : gmap string string) (rows : list (gmap string string))
    (Hspeed :
       r !! "Average Speed (km/h)" = None
       \/ (exists s, r !! "Average Speed (km/h)" = Some s /\ JS.all_whitespace s = true)
       \/ (exists s c rest,
             r !! "Average Speed (km/h)" = Some s
             /\ JS.trimStart s = String c rest
             /\ JS.digit c = None
             /\ ~ In c ["+"; "-"; "."; "I"]%char)) :
  Chart.speed (Chart.to_datum r) = JS.NaN
  /\ Chart.keep (Chart.to_datum r) = false
  /\ Chart.parse_rows (r :: rows) = Chart.parse_rows rows.
Proof.
  assert (S : Chart.speed (Chart.to_datum r) = JS.NaN).
  { cbn [Chart.to_datum Chart.speed].
    destruct Hspeed as [E | [(s & E & W) | (s & c & rest & E & T & D & N)]]; rewrite E.
    - reflexivity.
    - now apply parseFloat_blank.
    - now apply (parseFloat_not_numeric s rest c). }
  assert (K : Chart.keep (Chart.to_datum r) = false).
  { unfold Chart.keep. rewrite S. apply andb_false_r. }
  split; [exact S|]. split; [exact K|].
  rewrite parse_rows_cons. now rewrite K.
Qed.

Lemma row_without_a_speed_is_dropped_witness :
  Chart.parse_rows (MoreSamples.speedless_row :: Samples.csv_rows)
  = Chart.parse_rows Samples.csv_rows.
Proof.
  apply (row_without_a_speed_is_dropped MoreSamples.speedless_row Samples.csv_rows).
  left. reflexivity.
Defined.

Lemma lower_char_idem (c : ascii) : JS.lower_char (JS.lower_char c) = JS.lower_char c.
Proof. destruct c as [[] [] [] [] [] [] [] []]; reflexivity. Qed.

Lemma lower_char_whitespace (c : ascii) :
  JS.is_whitespace (JS.lower_char c) = JS.is_whitespace c.
Proof. destruct c as [[] [] [] [] [] [] [] []]; reflexivity. Qed.

Lemma toLowerCase_idem (s : string) : JS.toLowerCase (JS.toLowerCase s) = JS.toLowerCase s.
Proof.
  induction s as [|c s IH]; simpl; [reflexivity|].
  now rewrite lower_char_idem, IH.
Qed.

Lemma toLowerCase_strip_start (s : string) :
  JS.strip_start JS.is_whitespace (JS.toLowerCase s)
  = JS.toLowerCase (JS.strip_start JS.is_whitespace s).
Proof.
  induction s as [|c s IH]; simpl; [reflexivity|].
  rewrite lower_char_whitespace. destruct (JS.is_whitespace c); [exact IH|reflexivity].
Qed.

Lemma toLowerCase_strip_end (s : string) :
  JS.strip_end JS.is_whitespace (JS.toLowerCase s)
  = JS.toLowerCase (JS.strip_end JS.is_whitespace s).
Proof.
  induction s as [|c s IH]; simpl; [reflexivity|].
  rewrite IH, lower_char_whitespace.
  destruct (JS.strip_end JS.is_whitespace s) as [|d t]; simpl.
  - destruct (JS.is_whitespace c); reflexivity.
  - reflexivity.
Qed.

Lemma toLowerCase_trim (s : string) :
  JS.trim (JS.toLowerCase s) = JS.toLowerCase (JS.trim s).
Proof.
  unfold JS.trim, JS.trimEnd, JS.trimStart.
  now rewrite toLowerCase_strip_start, toLowerCase_strip_end.
Qed.

(** X16.  Every entry of the parsed dataset has a name that is trimmed and
    not empty, a finite speed, and a diet that is trimmed and in lower case,
    whatever the rows were. *)
Theorem parsed_entries_are_clean
    (rows : list (gmap string string)) (d : Chart.AnimalDatum)
    (Hin : In d (Chart.parse_rows rows)) :
  Chart.name d <> EmptyString
  /\ JS.trim (Chart.name d) = Chart.name d
  /\ (exists q, Chart.speed d = JS.Num q)
  /\ JS.trim (Chart.diet d) = Chart.diet d
  /\ JS.toLowerCase (Chart.diet d) = Chart.diet d.
Proof.
  unfold Chart.parse_rows in Hin.
  apply filter_In in Hin as [Hin K].
  apply in_map_iff in Hin as [r [<- _]].
  apply keep_true in K as [N S].
  split; [exact N|]. split; [|split; [exact S|]].
  - cbn [Chart.to_datum Chart.name]. apply trim_idem.
  - cbn [Chart.to_datum Chart.diet]. split.
    + now rewrite toLowerCase_trim, trim_idem.
    + apply toLowerCase_idem.
Qed.

Lemma parsed_entries_are_clean_witness :
  JS.trim (Chart.diet Samples.cheetah) = Chart.diet Samples.cheetah.
Proof.
  apply (parsed_entries_are_clean Samples.csv_rows Samples.cheetah).
  left. reflexivity.
Defined.

Lemma filter_sublist {A : Type} (f : A -> bool) (l : list A) :
  sublist (List.filter f l) l.
Proof.
  induction l as [|x l IH]; simpl; [constructor|].
  destruct (f x); now constructor.
Qed.

(** X17.  Parsing keeps the order of the CSV and works row by row: the
    parsed dataset is a sub-list of the mapped rows, never longer than the
    CSV, and parsing two batches of rows one after the other gives the two
    parsed batches one after the other. *)
Theorem parsing_keeps_order_and_is_row_wise
    (rows more : list (gmap string string)) :
  sublist (Chart.parse_rows rows) (List.map Chart.to_datum rows)
  /\ (length (Chart.parse_rows rows) <= length rows)%nat
  /\ Chart.parse_rows (rows ++ more) = (Chart.parse_rows rows ++ Chart.parse_rows more)%list.
Proof.
  unfold Chart.parse_rows. split; [apply filter_sublist|]. split.
  - rewrite <- (List.length_map Chart.to_datum rows). apply List.filter_length_le.
  - now rewrite List.map_app, List.filter_app.
Qed.

(* ===================================================================== *)
(** ** What is drawn *)
(* ===================================================================== *)

Lemma render_effect_attached (d : Chart.AnimalDatum) (ds : list Chart.AnimalDatum) :
  let data := d :: ds in
  Chart.render_effect true data
  = ([ Chart.ClearContainer;
       Chart.AppendSvg Chart.width Chart.height;
       Chart.AppendPlotGroup Chart.margin_left Chart.margin_top;
       Chart.ScaleBand (List.map Chart.name data) Chart.innerW;
       Chart.D3Max (List.map Chart.speed data);
       Chart.ScaleLinear (Chart.d3_max (List.map Chart.speed data)) Chart.innerH;
       Chart.ScaleOrdinal Chart.diets Chart.color_range ]
     ++ fst (Chart.bars Chart.diets data)
     ++ [ Chart.AxisBottom Chart.innerH;
          Chart.AxisLeft;
          Chart.LegendGroup (Chart.width - Chart.margin_right + 20) Chart.margin_top ]
     ++ Chart.legend_items (snd (Chart.bars Chart.diets data)) 0 Chart.diets)%list.
Proof.
  cbv zeta. unfold Chart.render_effect.
  change (negb true || (Z.of_nat (length (d :: ds)) =? 0)) with false.
  cbv iota.
  destruct (Chart.bars Chart.diets (d :: ds)) as [rects dom]. reflexivity.
Qed.

Lemma bars_keys (data : list Chart.AnimalDatum) (dom : list string) :
  omap Read.bar_key (fst (Chart.bars dom data))
  = List.map (fun d => (Chart.name d, Chart.speed d)) data.
Proof.
  revert dom. induction data as [|d ds IH]; intros dom; [reflexivity|].
  cbn [Chart.bars].
  destruct (Chart.color dom (Chart.diet d)) as [fill dom'].
  specialize (IH dom').
  destruct (Chart.bars dom' ds) as [ops dom'']. cbn [fst] in *.
  cbn [omap list_omap Read.bar_key List.map]. now rewrite IH.
Qed.

Lemma legend_items_no_bars (labels : list string) (dom : list string) (i : Z) :
  omap Read.bar_key (Chart.legend_items dom i labels) = [].
Proof.
  revert dom i. induction labels as [|l ls IH]; intros dom i; [reflexivity|].
  cbn [Chart.legend_items].
  destruct (Chart.color dom l) as [fill dom']. cbn. apply IH.
Qed.

Lemma omap_drawn (ops : list Chart.DrawOp) :
  omap Read.drawn (List.map Chart.Draw ops) = ops.
Proof. induction ops as [|op ops IH]; [reflexivity|]. cbn. now rewrite IH. Qed.

(** X18.  Mounted on an attached container, the component draws one bar per
    entry of the parsed dataset, in the order of the CSV, each with the
    entry's name and speed; rows that were filtered out have no bar, and an
    empty dataset has none. *)
Theorem one_bar_per_parsed_row (rows : list (gmap string string)) :
  omap Read.bar_key (omap Read.drawn (Chart.AnimalSpeedGraph true rows))
  = List.map (fun d => (Chart.name d, Chart.speed d)) (Chart.parse_rows rows).
Proof.
  unfold Chart.AnimalSpeedGraph.
  rewrite render_effect_nil. cbn [List.map app omap list_omap Read.drawn].
  rewrite omap_drawn.
  destruct (Chart.parse_rows rows) as [|d ds]; [reflexivity|].
  rewrite render_effect_attached.
  rewrite !omap_app, bars_keys, legend_items_no_bars.
  cbn [omap list_omap Read.bar_key app]. now rewrite !List.app_nil_r.
Qed.

(* ===================================================================== *)
(** ** Colours *)
(* ===================================================================== *)

Lemma index_of_app_found (k : string) (dom extra : list string) (n i : nat) :
  Chart.index_of k dom n = Some i ->
  Chart.index_of k (dom ++ extra) n = Some i.
Proof.
  revert n. induction dom as [|x dom IH]; intros n; simpl; [discriminate|].
  destruct (String.eqb x k); auto.
Qed.

Lemma index_of_app_new (k : string) (dom : list string) (n : nat) :
  Chart.index_of k dom n = None ->
  Chart.index_of k (dom ++ [k]) n = Some (n + length dom)%nat.
Proof.
  revert n. induction dom as [|x dom IH]; intros n; simpl.
  - intros _. rewrite String.eqb_refl. f_equal. lia.
  - destruct (String.eqb x k); [discriminate|].
    intros H. rewrite (IH _ H). f_equal. lia.
Qed.

Lemma range_colour_in (i : nat) : In (Read.range_colour i) Chart.color_range.
Proof.
  unfold Read.range_colour. apply nth_In.
  apply Nat.mod_upper_bound. discriminate.
Qed.

(** After a call the key is in the domain, at the index its colour was taken
    from, and the domain has only grown at its end. *)
Lemma color_spec (dom : list string) (k : string) :
  exists i extra,
    Chart.color dom k = (Read.range_colour i, (dom ++ extra)%list)
    /\ Chart.index_of k (dom ++ extra) 0 = Some i.
Proof.
  unfold Chart.color.
  destruct (Chart.index_of k dom 0) as [i|] eqn:E.
  - exists i, []. rewrite List.app_nil_r. auto.
  - exists (length dom), [k]. split; [reflexivity|].
    now rewrite (index_of_app_new k dom 0 E).
Qed.

Lemma color_stable (dom extra : list string) (k : string) (i : nat) :
  Chart.index_of k dom 0 = Some i ->
  Chart.color (dom ++ extra) k = (Read.range_colour i, (dom ++ extra)%list).
Proof.
  intros H. unfold Chart.color.
  now rewrite (index_of_app_found k dom extra 0 i H).
Qed.

Lemma bars_extends (data : list Chart.AnimalDatum) (dom : list string) :
  exists extra, snd (Chart.bars dom data) = (dom ++ extra)%list.
Proof.
  revert dom. induction data as [|d ds IH]; intros dom.
  - exists []. now rewrite List.app_nil_r.
  - cbn [Chart.bars].
    destruct (color_spec dom (Chart.diet d)) as (i & e1 & -> & _).
    destruct (IH (dom ++ e1)%list) as [e2 E].
    destruct (Chart.bars (dom ++ e1) ds) as [ops dom'']. cbn [snd] in *.
    exists (e1 ++ e2)%list. now rewrite List.app_assoc.
Qed.

(** Each bar has the colour the scale gives its diet once all bars are
    drawn. *)
Lemma bars_fills (data : list Chart.AnimalDatum) (dom : list string) :
  omap Read.bar_fill (fst (Chart.bars dom data))
  = List.map (fun d => fst (Chart.color (snd (Chart.bars dom data)) (Chart.diet d))) data.
Proof.
  revert dom. induction data as [|d ds IH]; intros dom; [reflexivity|].
  cbn [Chart.bars].
  destruct (color_spec dom (Chart.diet d)) as (i & e1 & -> & Hi).
  specialize (IH (dom ++ e1)%list).
  destruct (bars_extends ds (dom ++ e1)%list) as [e2 E].
  destruct (Chart.bars (dom ++ e1) ds) as [ops dom'']. cbn [fst snd] in *.
  cbn [omap list_omap Read.bar_fill List.map]. rewrite IH. f_equal.
  subst dom''. now rewrite (color_stable _ e2 _ i Hi).
Qed.

Lemma bars_no_legend (data : list Chart.AnimalDatum) (dom : list string) :
  omap Read.legend_key (fst (Chart.bars dom data)) = [].
Proof.
  revert dom. induction data as [|d ds IH]; intros dom; [reflexivity|].
  cbn [Chart.bars].
  destruct (Chart.color dom (Chart.diet d)) as [fill dom'].
  specialize (IH dom').
  destruct (Chart.bars dom' ds) as [ops dom'']. cbn [fst] in *.
  cbn. exact IH.
Qed.

Lemma legend_items_no_fills (labels : list string) (dom : list string) (i : Z) :
  omap Read.bar_fill (Chart.legend_items dom i labels) = [].
Proof.
  revert dom i. induction labels as [|l ls IH]; intros dom i; [reflexivity|].
  cbn [Chart.legend_items].
  destruct (Chart.color dom l) as [fill dom']. cbn. apply IH.
Qed.

Lemma render_effect_fills (data : list Chart.AnimalDatum) :
  omap Read.bar_fill (Chart.render_effect true data)
  = List.map (fun d => fst (Chart.color (snd (Chart.bars Chart.diets data)) (Chart.diet d)))
      data.
Proof.
  destruct data as [|d ds]; [reflexivity|].
  rewrite render_effect_attached.
  rewrite !omap_app, bars_fills, legend_items_no_fills.
  cbn [omap list_omap Read.bar_fill app]. now rewrite !List.app_nil_r.
Qed.

(** X19.  The bars are coloured by diet: there is one fill per entry, always
    one of the three colours of the range; two entries with the same diet
    have the same fill; and an entry whose diet is herbivore, omnivore or
    carnivore has the colour the legend shows for it. *)
Theorem bar_colours_follow_the_diet (data : list Chart.AnimalDatum) :
  let fills := omap Read.bar_fill (Chart.render_effect true data) in
  length fills = length data
  /\ (forall i d f,
        nth_error data i = Some d -> nth_error fills i = Some f ->
        In f Chart.color_range
        /\ (Chart.diet d = "herbivore" -> f = "#66c2a5")
        /\ (Chart.diet d = "omnivore" -> f = "#fc8d62")
        /\ (Chart.diet d = "carnivore" -> f = "#8da0cb"))
  /\ (forall i j d1 d2 f1 f2,
        nth_error data i = Some d1 -> nth_error data j = Some d2 ->
        nth_error fills i = Some f1 -> nth_error fills j = Some f2 ->
        Chart.diet d1 = Chart.diet d2 -> f1 = f2).
Proof.
  cbv zeta. rewrite render_effect_fills.
  destruct (bars_extends data Chart.diets) as [extra ->].
  split; [apply List.length_map|]. split.
  - intros i d f Hd Hf.
    rewrite (List.map_nth_error _ _ _ Hd) in Hf. injection Hf as <-.
    cbv beta.
    split; [|repeat split; intros ->; reflexivity].
    match goal with
    | |- context [Chart.color ?dom ?k] => destruct (color_spec dom k) as (n & e & -> & _)
    end.
    apply range_colour_in.
  - intros i j d1 d2 f1 f2 H1 H2 F1 F2 E.
    rewrite (List.map_nth_error _ _ _ H1) in F1.
    rewrite (List.map_nth_error _ _ _ H2) in F2.
    injection F1 as <-. injection F2 as <-. now rewrite E.
Qed.

(** X20.  Whenever a chart is drawn, its legend is the same three entries,
    herbivore, omnivore and carnivore, 20 apart and in the colours of the
    range in that order, whatever diets the data holds. *)
Theorem legend_does_not_depend_on_the_data
    (rows : list (gmap string string))
    (Hdata : Chart.parse_rows rows <> []) :
  omap Read.legend_key (omap Read.drawn (Chart.AnimalSpeedGraph true rows))
  = [ (0, "herbivore", "#66c2a5");
      (20, "omnivore", "#fc8d62");
      (40, "carnivore", "#8da0cb") ].
Proof.
  unfold Chart.AnimalSpeedGraph.
  rewrite render_effect_nil. cbn [List.map app omap list_omap Read.drawn].
  rewrite omap_drawn.
  destruct (Chart.parse_rows rows) as [|d ds]; [now elim Hdata|].
  rewrite render_effect_attached.
  destruct (bars_extends (d :: ds) Chart.diets) as [extra ->].
  rewrite !omap_app, bars_no_legend. reflexivity.
Qed.

Lemma legend_does_not_depend_on_the_data_witness :
  omap Read.legend_key
    (omap Read.drawn (Chart.AnimalSpeedGraph true MoreSamples.mixed_rows))
  = [ (0, "herbivore", "#66c2a5");
      (20, "omnivore", "#fc8d62");
      (40, "carnivore", "#8da0cb") ].
Proof.
  apply (legend_does_not_depend_on_the_data MoreSamples.mixed_rows).
  vm_compute. discriminate.
Defined.

(* ===================================================================== *)
(** ** The domain of the speed scale *)
(* ===================================================================== *)

Lemma d3_max_from_bound (values : list JS.number) (q : Q) :
  Forall (fun v => JS.Number_isFinite v = true) values ->
  exists m,
    Chart.d3_max_from (Some (JS.Num q)) values = Some (JS.Num m)
    /\ (q <= m)%Q
    /\ (forall r, In (JS.Num r) values -> (r <= m)%Q)
    /\ (JS.Num m = JS.Num q \/ In (JS.Num m) values).
Proof.
  intros F. revert q. induction F as [|v vs Hv F IH]; intros q.
  - exists q. repeat split; [apply Qle_refl | intros r [] | now left].
  - apply isFinite_true in Hv as [r ->]. cbn [Chart.d3_max_from JS.ltb].
    destruct (Qle_bool r q) eqn:L; cbn [negb].
    + apply Qle_bool_iff in L.
      destruct (IH q) as (m & E & Hq & Hall & Hin).
      exists m. repeat split; auto.
      * intros x [X|X]; [|now apply Hall].
        injection X as <-. now apply Qle_trans with q.
      * destruct Hin as [Hin|Hin]; [now left | right; now right].
    + assert (Lt : (q < r)%Q).
      { apply Qnot_le_lt. intros H. apply Qle_bool_iff in H. congruence. }
      destruct (IH r) as (m & E & Hr & Hall & Hin).
      exists m. repeat split; auto.
      * apply Qle_trans with r; [now apply Qlt_le_weak | exact Hr].
      * intros x [X|X]; [|now apply Hall].
        injection X as <-. exact Hr.
      * right. destruct Hin as [Hin|Hin]; [left; now symmetry | now right].
Qed.

(** X21.  When a chart is drawn, the upper bound the linear scale's domain is
    built from (before d3 rounds it with [nice]) is the greatest speed of the
    parsed dataset: a finite number that is the speed of some entry and that
    no entry's speed exceeds. *)
Theorem scale_is_built_from_the_greatest_speed
    (rows : list (gmap string string))
    (Hdata : Chart.parse_rows rows <> []) :
  exists m,
    In (Chart.ScaleLinear (Some (JS.Num m)) Chart.innerH)
       (Chart.render_effect true (Chart.parse_rows rows))
    /\ (exists d, In d (Chart.parse_rows rows) /\ Chart.speed d = JS.Num m)
    /\ (forall d q, In d (Chart.parse_rows rows) -> Chart.speed d = JS.Num q -> (q <= m)%Q).
Proof.
  pose proof (parse_rows_all_kept rows) as K.
  destruct (Chart.parse_rows rows) as [|d ds] eqn:P; [now elim Hdata|].
  assert (F : Forall (fun v => JS.Number_isFinite v = true)
                (List.map Chart.speed (d :: ds))).
  { apply Forall_map. eapply Forall_impl; [exact K|].
    intros a Ka. apply keep_true in Ka as [_ [r Er]]. simpl. now rewrite Er. }
  cbn [List.map] in F. apply Forall_cons_iff in F as [Fd F].
  apply isFinite_true in Fd as [q Eq].
  destruct (d3_max_from_bound _ q F) as (m & E & Hq & Hall & Hin).
  assert (M : Chart.d3_max (List.map Chart.speed (d :: ds)) = Some (JS.Num m)).
  { unfold Chart.d3_max. cbn [List.map Chart.d3_max_from]. rewrite Eq.
    assert (G : JS.geb (JS.Num q) (JS.Num q) = true).
    { unfold JS.geb, JS.ltb. rewrite negb_involutive. apply Qle_bool_iff, Qle_refl. }
    now rewrite G. }
  exists m. split; [|split].
  - rewrite render_effect_attached. cbv zeta. rewrite M.
    apply in_or_app. left. simpl. tauto.
  - destruct Hin as [Hin|Hin].
    + exists d. split; [now left | congruence].
    + apply in_map_iff in Hin as (x & Ex & Hx). exists x. split; [now right | exact Ex].
  - intros x r [<-|Hx] Ex.
    + rewrite Eq in Ex. injection Ex as <-. exact Hq.
    + apply Hall. rewrite <- Ex. now apply in_map.
Qed.

Lemma scale_is_built_from_the_greatest_speed_witness :
  exists m,
    In (Chart.ScaleLinear (Some (JS.Num m)) Chart.innerH)
       (Chart.render_effect true (Chart.parse_rows MoreSamples.mixed_rows))
    /\ (exists d, In d (Chart.parse_rows MoreSamples.mixed_rows)
                  /\ Chart.speed d = JS.Num m)
    /\ (forall d q, In d (Chart.parse_rows MoreSamples.mixed_rows) ->
                    Chart.speed d = JS.Num q -> (q <= m)%Q).
Proof.
  apply (scale_is_built_from_the_greatest_speed MoreSamples.mixed_rows).
  vm_compute. discriminate.
Defined.

(* ===================================================================== *)
(** ** What the inputs display and take *)
(* ===================================================================== *)

(** X22.  What the common name and description inputs display reads back as
    the stored value: null is displayed as the empty string, which validates
    to null again, and a trimmed non-blank text validates to itself. *)
Theorem displayed_text_reads_back (value : option string)
    (Hstored : Read.null_or_trimmed value) :
  Dialog.parse_optional_text (Some (Input.shown value)) = Some value.
Proof.
  rewrite parse_optional_text_spec. f_equal.
  destruct value as [t|]; [|reflexivity].
  destruct Hstored as [T W]. cbn [Input.shown]. now rewrite W, T.
Qed.

Lemma displayed_text_reads_back_witness :
  Dialog.parse_optional_text (Some (Input.shown None)) = Some None
  /\ Dialog.parse_optional_text (Some (Input.shown (Some "Guinea pig")))
     = Some (Some "Guinea pig").
Proof.
  split.
  - apply (displayed_text_reads_back None). exact I.
  - apply (displayed_text_reads_back (Some "Guinea pig")). split; reflexivity.
Defined.

Lemma digit_char (c : ascii) (d : Z) :
  JS.digit c = Some d ->
  JS.is_whitespace c = false
  /\ JS.sign (String c EmptyString) = (false, String c EmptyString)
  /\ Ascii.eqb c "I" = false
  /\ Ascii.eqb c "." = false
  /\ Input.radix_of c = None.
Proof.
  destruct c as [[] [] [] [] [] [] [] []]; try discriminate; intros _; repeat split.
Qed.

Lemma digits_all (s : string) (acc count v n : Z) :
  JS.digits s acc count = (v, n, EmptyString) -> Read.all_digits s = true.
Proof.
  revert acc count. induction s as [|c s IH]; intros acc count; simpl; [reflexivity|].
  destruct (JS.digit c); [apply IH | discriminate].
Qed.

Lemma digits_count (s : string) (acc count v n : Z) (rest : string) :
  JS.digits s acc count = (v, n, rest) -> count <= n /\ (s = EmptyString -> n = count).
Proof.
  revert acc count. induction s as [|c s IH]; intros acc count; simpl.
  - intros H. injection H as <- <- <-. split; [lia|reflexivity].
  - destruct (JS.digit c).
    + intros H. apply IH in H as [H _]. split; [lia|discriminate].
    + intros H. injection H as <- <- <-. split; [lia|discriminate].
Qed.

Lemma all_digits_strip_start (s : string) :
  Read.all_digits s = true -> JS.strip_start JS.is_whitespace s = s.
Proof.
  destruct s as [|c s]; simpl; [reflexivity|].
  destruct (JS.digit c) as [d|] eqn:D; [|discriminate].
  destruct (digit_char c d D) as (W & _). now rewrite W.
Qed.

Lemma all_digits_strip_end (s : string) :
  Read.all_digits s = true -> JS.strip_end JS.is_whitespace s = s.
Proof.
  induction s as [|c s IH]; simpl; [reflexivity|].
  destruct (JS.digit c) as [d|] eqn:D; [|discriminate].
  destruct (digit_char c d D) as (W & _).
  intros H. rewrite (IH H), W. now destruct s.
Qed.

Lemma all_digits_not_prefixed (s : string) :
  Read.all_digits s = true -> Input.non_decimal_literal s = None.
Proof.
  destruct s as [|c [|p ds]]; [reflexivity| |].
  - intros _. destruct c as [[] [] [] [] [] [] [] []]; reflexivity.
  - simpl. destruct (JS.digit c); [|discriminate].
    destruct (JS.digit p) as [d|] eqn:D; [|discriminate].
    destruct (digit_char p d D) as (_ & _ & _ & _ & R). intros _.
    destruct c as [[] [] [] [] [] [] [] []]; try reflexivity.
    cbn [Input.non_decimal_literal]. now rewrite R.
Qed.

Lemma decimal_whole (v t : Z) :
  v < t ->
  Qle_bool (Qmake t 1) (Qmake (v * 10 ^ 0) 1) = false
  /\ (Qmake (v * 10 ^ 0) 1 == inject_Z v)%Q.
Proof.
  intros H. rewrite Z.pow_0_r, Z.mul_1_r. split; [|reflexivity].
  destruct (Qle_bool (Qmake t 1) (Qmake v 1)) eqn:L; [|reflexivity].
  apply Qle_bool_iff in L. unfold Qle in L. cbn [Qnum Qden] in L. lia.
Qed.

(** The integers up to [2^53] are doubles. *)
Lemma exact_integer_fits (v : Z) : v <= 2 ^ 53 -> v < JS.overflow_threshold.
Proof.
  intros H. apply Z.le_lt_trans with (2 ^ 53); [exact H|].
  vm_compute. reflexivity.
Qed.

(** X23.  A population typed as a plain run of decimal digits, of a value of
    at most [2^53] (so that it is a double as it stands), becomes that whole
    number, and it passes validation exactly when it is at least 1. *)
Theorem typed_whole_number_is_read_exactly
    (text : string) (v n : Z)
    (Hdigits : JS.digits text 0 0 = (v, n, EmptyString))
    (Hsome : 0 < n)
    (Hexact : v <= 2 ^ 53) :
  exists q,
    Input.StringToNumber text = JS.Num q
    /\ (q == inject_Z v)%Q
    /\ (Dialog.parse_total_population (Some (Input.StringToNumber text))
        = Some (Some (Input.StringToNumber text)) <-> 1 <= v).
Proof.
  pose proof (exact_integer_fits v Hexact) as Hfits.
  pose proof (digits_all _ _ _ _ _ Hdigits) as A.
  destruct text as [|c s].
  { apply digits_count in Hdigits as [_ H]. specialize (H eq_refl). lia. }
  assert (D : exists d, JS.digit c = Some d).
  { simpl in A. destruct (JS.digit c); [eauto|discriminate]. }
  destruct D as [d D].
  destruct (digit_char c d D) as (_ & S & I & P & _).
  destruct (decimal_whole v JS.overflow_threshold Hfits) as [L E].
  assert (N : Input.StringToNumber (String c s) = JS.Num (Qmake (v * 10 ^ 0) 1)).
  { unfold Input.StringToNumber, JS.trim, JS.trimEnd, JS.trimStart.
    rewrite (all_digits_strip_start _ A), (all_digits_strip_end _ A).
    cbn [JS.is_empty]. rewrite (all_digits_not_prefixed _ A).
    assert (S' : JS.sign (String c s) = (false, String c s)).
    { unfold JS.sign in *. destruct c as [[] [] [] [] [] [] [] []];
        try reflexivity; discriminate. }
    rewrite S'. unfold Input.whole_unsigned_literal.
    assert (Q : String.eqb (String c s) "Infinity" = false).
    { cbn [String.eqb]. now rewrite I. }
    rewrite Q, Hdigits.
    destruct (Z.eqb_spec n 0) as [Z0|_]; [lia|].
    cbn [Input.exponent_rest JS.is_empty]. unfold JS.decimal.
    cbn [Z.leb Z.compare]. now rewrite L. }
  exists (Qmake (v * 10 ^ 0) 1). split; [exact N|]. split; [exact E|].
  rewrite N, parse_total_population_num. split.
  - intros [z [Ez Hz]]. rewrite E in Ez. unfold Qeq in Ez.
    cbn [Qnum Qden inject_Z] in Ez. lia.
  - intros H. exists v. auto.
Qed.

Lemma typed_whole_number_is_read_exactly_witness :
  exists q,
    Input.StringToNumber "300000" = JS.Num q
    /\ (q == inject_Z 300000)%Q
    /\ (Dialog.parse_total_population (Some (Input.StringToNumber "300000"))
        = Some (Some (Input.StringToNumber "300000")) <-> 1 <= 300000).
Proof.
  apply (typed_whole_number_is_read_exactly "300000" 300000 6).
  - reflexivity.
  - lia.
  - vm_compute. discriminate.
Defined.
